(** * Velocity speed-test backend: a model of [src/server.js]

    The server is one JavaScript file: two utility functions
    ([getSystemLoad], [generateSpeedStats]), three Express routes and a
    cluster set-up that forks one worker per CPU.  The embedding follows
    the file top to bottom.  JavaScript built-ins the file calls
    ([Number.prototype.toFixed], unary [+], [Date.prototype.toISOString],
    [Math.random], the [os] and [process] modules) are modelled from their
    ECMAScript / Node.js definitions, as far as the file uses them.  What
    the imported packages decide from inputs this development does not
    interpret (whether a request body parses as JSON, whether an entity
    tag matches, whether the operating system grants a port) is a
    component of the world a process runs in ([Runtime]); every theorem
    holds whatever those decisions are.

    Part I holds every definition, Part II the lemmas and the theorems. *)

From Stdlib Require Import ZArith NArith QArith Qpower Qround Qabs.
From Stdlib Require Import Lia Lqa Bool String Ascii List.
From Stdlib Require Import Decimal DecimalString DecimalN DecimalPos.
From Stdlib Require Import Floats.
Import ListNotations.
Set Warnings "-register-all,-inexact-float".

(* ================================================================== *)
(** * Part I: definitions *)
(* ================================================================== *)

(** ** JavaScript numbers

    A finite JavaScript number is an IEEE-754 binary64 value.  It is kept
    here as the rational it denotes; every arithmetic operation computes
    the exact rational result and rounds it to the nearest binary64 value,
    ties to even ([fl]).  Numbers of this program stay far below 2^1024,
    so overflow to infinity is not modelled; gradual underflow is
    (the spacing never drops below 2^-1074). *)
Module Float.
Open Scope Q_scope.

Definition pow2 (e : Z) : Q := Qpower 2 e.

(** [binade x] is the exponent [e] with [2^e <= x < 2^(e+1)], for [x > 0]. *)
Definition binade (x : Q) : Z :=
  let e0 := (Z.log2 (Qnum x) - Z.log2 (Zpos (Qden x)))%Z in
  if Qle_bool (pow2 e0) x then e0 else (e0 - 1)%Z.

(** Round to the nearest integer, ties to the even one. *)
Definition rne (x : Q) : Z :=
  let f := Qfloor x in
  match Qcompare (x - inject_Z f) (1 # 2) with
  | Lt => f
  | Gt => (f + 1)%Z
  | Eq => if Z.even f then f else (f + 1)%Z
  end.

(** Spacing of binary64 values around [x > 0]: 53 significant bits,
    and never finer than 2^-1074. *)
Definition quantum (x : Q) : Q := pow2 (Z.max (binade x - 52) (-1074)).

(** The binary64 value nearest to [x] (in lowest terms). *)
Definition fl (x : Q) : Q :=
  if Qeq_bool x 0 then 0
  else
    let a := Qabs x in
    let q := quantum a in
    let m := inject_Z (rne (a / q)) * q in
    Qred (if Qle_bool 0 x then m else - m).

(** A numeric literal of the source denotes the nearest binary64 value
    ([99.9] is not exactly representable; the integer literals are). *)
Definition lit (x : Q) : Q := fl x.

Definition fadd (x y : Q) : Q := fl (x + y).
Definition fsub (x y : Q) : Q := fl (x - y).
Definition fmul (x y : Q) : Q := fl (x * y).
Definition fdiv (x y : Q) : Q := fl (x / y).

(** A result of a string-to-number conversion may be [NaN]. *)
Inductive number : Type :=
| NaN
| Num (q : Q).

(** The rational that a finite value of the prover's own binary64 type
    denotes: the operations above are checked against the machine's
    arithmetic through it (Part II). *)
Definition Q_of_float (x : float) : option Q :=
  match Prim2SF x with
  | S754_zero _ => Some 0
  | S754_finite s m e =>
      Some (Qred ((if s then -1 else 1) * inject_Z (Zpos m) * pow2 e))
  | _ => None
  end.

End Float.
Import Float.

(** ** [Number.prototype.toFixed] and unary plus *)
Module JsNumber.
Open Scope string_scope.

Definition pow10 (f : nat) : Z := 10 ^ Z.of_nat f.

(** ECMAScript [toFixed], step "let n be an integer for which
    n / 10^f - x is as close to zero as possible; if there are two such n,
    pick the larger n". *)
Definition nearest_scaled (f : nat) (x : Q) : Z :=
  Qfloor (x * inject_Z (pow10 f) + (1 # 2)).

(** Decimal digits of a non-negative integer, ["0"] for zero. *)
Definition digits_of (n : Z) : string :=
  NilEmpty.string_of_uint (N.to_uint (Z.to_N n)).

Fixpoint zeros (k : nat) : string :=
  match k with
  | O => ""
  | S k' => String "0" (zeros k')
  end.

(** [x.toFixed(f)] for a finite [x] below 10^21 (from 10^21 on the
    built-in switches to exponent notation; no value of this program
    gets there). *)
Definition toFixed (f : nat) (x : Q) : string :=
  let s := if Qle_bool 0 x then "" else "-" in
  let x := Qabs x in
  let n := nearest_scaled f x in
  let m := digits_of n in
  let m :=
    if Nat.eqb f 0 then m
    else
      let k := String.length m in
      let m := if Nat.leb k f then zeros (f + 1 - k) ++ m else m in
      let k := String.length m in
      substring 0 (k - f) m ++ "." ++ substring (k - f) f m in
  s ++ m.

(** Split a string at its first ["."]. *)
Fixpoint split_dot (s : string) : string * option string :=
  match s with
  | EmptyString => (EmptyString, None)
  | String c t =>
      if Ascii.eqb c "." then (EmptyString, Some t)
      else let (a, b) := split_dot t in (String c a, b)
  end.

(** An unsigned decimal literal: digits, optionally a dot and digits,
    at least one digit in all. *)
Definition parse_unsigned (s : string) : option Q :=
  let (a, ob) := split_dot s in
  let b := match ob with Some b => b | None => "" end in
  match String.length (a ++ b), NilEmpty.uint_of_string (a ++ b) with
  | S _, Some u =>
      Some (Z.of_N (N.of_uint u) # Z.to_pos (pow10 (String.length b)))
  | _, _ => None
  end.

(** The mathematical value of a signed decimal literal; the empty string
    converts to 0.  Other forms that JavaScript accepts (white space,
    exponents, hexadecimal, [Infinity]) never come out of [toFixed] below
    10^21 and are read as not-a-number here. *)
Definition parse_decimal (s : string) : option Q :=
  match s with
  | EmptyString => Some 0%Q
  | String "-" t => option_map Qopp (parse_unsigned t)
  | String "+" t => parse_unsigned t
  | _ => parse_unsigned s
  end.

(** Unary [+] applied to a string. *)
Definition unary_plus (s : string) : number :=
  match parse_decimal s with
  | Some q => Num (fl q)
  | None => NaN
  end.

End JsNumber.
Import JsNumber.

(** ** [Date.prototype.toISOString]

    A [Date] is a time value: milliseconds since 1970-01-01T00:00:00Z.
    The calendar fields are those of ECMAScript ([Day], [HourFromTime],
    ...), the civil date being computed era by era (400 Gregorian years
    are 146097 days). *)
Module JsDate.
Open Scope string_scope.
Open Scope Z_scope.

Definition msPerDay : Z := 86400000.
Definition Day (t : Z) : Z := t / msPerDay.

Definition HourFromTime (t : Z) : Z := (t / 3600000) mod 24.
Definition MinFromTime (t : Z) : Z := (t / 60000) mod 60.
Definition SecFromTime (t : Z) : Z := (t / 1000) mod 60.
Definition msFromTime (t : Z) : Z := t mod 1000.

(** A day number is located in its era; eras start on 1 March of a year
    divisible by 400, so that the leap day is the last day of a year. *)
Definition era (d : Z) : Z := (d + 719468) / 146097.
Definition day_of_era (d : Z) : Z := (d + 719468) mod 146097.
Definition year_of_era (doe : Z) : Z :=
  (doe - doe / 1460 + doe / 36524 - doe / 146096) / 365.
Definition day_of_year (doe : Z) : Z :=
  let yoe := year_of_era doe in doe - (365 * yoe + yoe / 4 - yoe / 100).
(** Month counted from March = 0. *)
Definition month_from_march (doe : Z) : Z := (5 * day_of_year doe + 2) / 153.

(** Month 1..12, day of the month 1..31 and year of a time value. *)
Definition MonthFromTime (t : Z) : Z :=
  let mp := month_from_march (day_of_era (Day t)) in
  if mp <? 10 then mp + 3 else mp - 9.
Definition DateFromTime (t : Z) : Z :=
  let doe := day_of_era (Day t) in
  day_of_year doe - (153 * month_from_march doe + 2) / 5 + 1.
Definition YearFromTime (t : Z) : Z :=
  let d := Day t in
  year_of_era (day_of_era d) + era d * 400 + (if MonthFromTime t <=? 2 then 1 else 0).

(** [ToZeroPaddedDecimalString(n, w)]. *)
Definition zero_padded (n : Z) (w : nat) : string :=
  let s := digits_of n in (zeros (w - String.length s) ++ s)%string.

(** Four digits for the years 0 to 9999, else a sign and six digits. *)
Definition year_string (y : Z) : string :=
  if (0 <=? y) && (y <=? 9999) then zero_padded y 4
  else
    let sign := if y <? 0 then "-" else "+" in
    (sign ++ zero_padded (Z.abs y) 6)%string.

Definition toISOString (t : Z) : string :=
  (year_string (YearFromTime t) ++ "-" ++ zero_padded (MonthFromTime t) 2 ++ "-" ++
   zero_padded (DateFromTime t) 2 ++ "T" ++ zero_padded (HourFromTime t) 2 ++ ":" ++
   zero_padded (MinFromTime t) 2 ++ ":" ++ zero_padded (SecFromTime t) 2 ++ "." ++
   zero_padded (msFromTime t) 3 ++ "Z")%string.

(** The time values of a valid [Date] (100,000,000 days either side of
    the epoch). *)
Definition valid_time (t : Z) : bool :=
  (-8640000000000000 <=? t) && (t <=? 8640000000000000).

(** *** A recogniser of ISO-8601 date-time strings

    [YYYY-MM-DDTHH:mm:ss.sssZ], or the expanded form with a sign and a
    six-digit year; every field made of digits and within its range. *)
Definition is_digit (c : ascii) : bool :=
  (48 <=? nat_of_ascii c)%nat && (nat_of_ascii c <=? 57)%nat.

Fixpoint all_digits (s : string) : bool :=
  match s with
  | EmptyString => true
  | String c t => is_digit c && all_digits t
  end.

Fixpoint value_of (acc : Z) (s : string) : Z :=
  match s with
  | EmptyString => acc
  | String c t => value_of (10 * acc + (Z.of_nat (nat_of_ascii c) - 48)) t
  end.

(** Exactly [w] digits, denoting a value in [lo, hi]. *)
Definition field_ok (w : nat) (lo hi : Z) (s : string) : bool :=
  (String.length s =? w)%nat && all_digits s &&
  (lo <=? value_of 0 s) && (value_of 0 s <=? hi).

Inductive piece : Type :=
| Sep (c : ascii)
| Field (w : nat) (lo hi : Z).

Fixpoint matches (ps : list piece) (s : string) : bool :=
  match ps with
  | [] => String.eqb s ""
  | Sep c :: ps' =>
      match s with
      | String d t => Ascii.eqb c d && matches ps' t
      | EmptyString => false
      end
  | Field w lo hi :: ps' =>
      field_ok w lo hi (substring 0 w s) &&
      matches ps' (substring w (String.length s - w) s)
  end.

Definition after_year : list piece :=
  [Sep "-"; Field 2 1 12; Sep "-"; Field 2 1 31; Sep "T"; Field 2 0 23;
   Sep ":"; Field 2 0 59; Sep ":"; Field 2 0 59; Sep "."; Field 3 0 999; Sep "Z"].

Definition is_iso8601 (s : string) : bool :=
  matches (Field 4 0 9999 :: after_year) s ||
  matches (Sep "+" :: Field 6 0 999999 :: after_year) s ||
  matches (Sep "-" :: Field 6 0 999999 :: after_year) s.

End JsDate.
Import JsDate.

(** ** JavaScript values and the JSON text [res.json] sends

    [jsval] covers the values the handlers build; [to_json] is
    [JSON.stringify] read back as a tree: a [Date] is serialised through
    [toJSON] (its ISO string, [null] for an invalid date) and [NaN]
    becomes [null]. *)
Module Json.

Inductive jsval : Type :=
| VNumber (n : number)
| VString (s : string)
| VDate (t : Z)
| VObject (fields : list (string * jsval)).

Inductive json : Type :=
| JNull
| JNumber (q : Q)
| JString (s : string)
| JObject (members : list (string * json)).

Definition json_of_number (n : number) : json :=
  match n with
  | NaN => JNull
  | Num q => JNumber q
  end.

Definition json_of_date (t : Z) : json :=
  if valid_time t then JString (toISOString t) else JNull.

Fixpoint to_json (v : jsval) : json :=
  match v with
  | VNumber n => json_of_number n
  | VString s => JString s
  | VDate t => json_of_date t
  | VObject fs => JObject (map (fun kv => (fst kv, to_json (snd kv))) fs)
  end.

Fixpoint assoc (k : string) (ms : list (string * json)) : option json :=
  match ms with
  | [] => None
  | (k', v) :: ms' => if String.eqb k k' then Some v else assoc k ms'
  end.

(** [j.k], for an object [j]. *)
Definition member (k : string) (j : json) : option json :=
  match j with
  | JObject ms => assoc k ms
  | _ => None
  end.

Definition keys (j : json) : list string :=
  match j with
  | JObject ms => map fst ms
  | _ => []
  end.

End Json.
Import Json.

(** ** HTTP requests and answers

    A request as Node hands it to Express: the header names are in lower
    case, as in [req.headers].  An answer is the status code together
    with the value that was handed to [res.send] or [res.json] ([body]);
    what of it is written to the client is [written], with the routes. *)
Module Http.

Inductive Method : Type := GET | HEAD | POST | PUT | DELETE | PATCH | OPTIONS.

Record Request : Type := {
  req_method : Method;
  req_path : string;
  req_query : list (string * string);
  req_headers : list (string * string);
  req_body : string
}.

Inductive Body : Type :=
| Text (s : string)
| Json (j : json).

Record Response : Type := {
  statusCode : nat;
  body : Body
}.

End Http.
Import Http.

(** ** The world a process of the server runs in

    What the file reads from its surroundings: the operating system
    ([os]), the process ([process]), the clock ([new Date()]) and the
    random number generator ([Math.random]).  The generator is the
    sequence of its draws, each a number in [0, 1), and a position in
    it; a draw advances the position and nothing else of the world.

    [runtime] holds what Node.js and the imported packages decide where
    this development does not interpret their input. *)
Module Env.

Record Cpu : Type := { model : string; speed : N }.

(** Memory is counted in bytes.  Some memory is always in use (this
    process runs), so the total is positive and the free part is below
    it. *)
Record OS : Type := {
  cpus : list Cpu;
  loadavg : Q * Q * Q;
  freemem : N;
  usedmem : positive;
  hostname : string
}.

Definition totalmem (o : OS) : N := freemem o + Npos (usedmem o).

Record Process : Type := {
  pid : N;
  uptime : Q;
  env : string -> option string
}.

(** What a server is asked to listen on: a TCP port or the path of a
    pipe (a Unix domain socket). *)
Inductive ListenTarget : Type :=
| Port (n : N)
| Pipe (path : string).

(** - [json_refusal]: [express.json()] (line 22) on a request that has a
      body: the answer it ends the request with (400 for malformed JSON,
      413 for a body over the limit, ...), or [None] when it lets the
      request pass;
    - [validators_match]: inside [res.send], whether the validators of a
      conditional request ([If-None-Match], [If-Modified-Since]) match
      the entity tag Express computes for the body;
    - [double_slash_is_root]: whether the path of two slashes is taken
      for the root route (Express 5 does, Express 4 does not);
    - [listen_text]: what [server.listen] makes of a text that is not a
      plain decimal numeral (Node converts it with [Number]: a port, a
      pipe path, or [None] when it throws [ERR_SOCKET_BAD_PORT]);
    - [bind_error]: the error the operating system refuses a port or
      pipe with ([EADDRINUSE], [EACCES], ...), [None] when it grants it. *)
Record Runtime : Type := {
  json_refusal : Request -> option Response;
  validators_match : Request -> Body -> bool;
  double_slash_is_root : bool;
  listen_text : string -> option ListenTarget;
  bind_error : ListenTarget -> option string
}.

Record World : Type := {
  os : OS;
  process : Process;
  clock : Z;
  random : nat -> Q;
  drawn : nat;
  runtime : Runtime
}.

(** Computations that read the world and may advance the generator. *)
Definition Js (A : Type) : Type := World -> A * World.

Definition ret {A : Type} (a : A) : Js A := fun w => (a, w).

Definition bind {A B : Type} (m : Js A) (k : A -> Js B) : Js B :=
  fun w => let (a, w') := m w in k a w'.

Definition read {A : Type} (f : World -> A) : Js A := fun w => (f w, w).

Definition run {A : Type} (m : Js A) (w : World) : A := fst (m w).

Definition os_cpus : Js (list Cpu) := read (fun w => cpus (os w)).
Definition os_loadavg : Js (Q * Q * Q) := read (fun w => loadavg (os w)).
Definition os_freemem : Js Q :=
  read (fun w => fl (inject_Z (Z.of_N (freemem (os w))))).
Definition os_totalmem : Js Q :=
  read (fun w => fl (inject_Z (Z.of_N (totalmem (os w))))).
Definition os_hostname : Js string := read (fun w => hostname (os w)).
Definition process_uptime : Js Q := read (fun w => uptime (process w)).
Definition process_env (name : string) : Js (option string) :=
  read (fun w => env (process w) name).
Definition new_Date : Js Z := read clock.

Definition Math_random : Js Q :=
  fun w =>
    (random w (drawn w),
     {| os := os w; process := process w; clock := clock w;
        random := random w; drawn := S (drawn w); runtime := runtime w |}).

(** [a || b] on an environment variable: an unset or empty one is falsy. *)
Definition or_default (a : option string) (b : string) : string :=
  match a with
  | Some s => if String.eqb s "" then b else s
  | None => b
  end.

End Env.
Import Env.

Declare Scope js_scope.
Delimit Scope js_scope with js.
Notation "x <- m ;; k" := (bind m (fun x => k))
  (at level 61, m at next level, right associativity) : js_scope.
Open Scope js_scope.

(** ** [server.js]: utility functions *)

Record SystemLoad : Type := {
  cpuCount : nat;
  avgLoad : Q;
  freeMem : string
}.

(** [function getSystemLoad()], lines 26-31. *)
Definition getSystemLoad : Js SystemLoad :=
  cpus <- os_cpus ;;
  la <- os_loadavg ;;
  let avgLoad := fst (fst la) in
  fm <- os_freemem ;;
  tm <- os_totalmem ;;
  let freeMem := fmul (fdiv fm tm) 100 in
  ret {| cpuCount := List.length cpus;
         avgLoad := avgLoad;
         freeMem := toFixed 2 freeMem |}.

Record SpeedStats : Type := {
  ping : number;
  download : number;
  upload : number;
  accuracy : number
}.

(** [function generateSpeedStats()], lines 34-40. *)
Definition generateSpeedStats : Js SpeedStats :=
  r1 <- Math_random ;;
  let ping := unary_plus (toFixed 1 (fadd (fmul r1 (fsub 40 8)) 8)) in
  r2 <- Math_random ;;
  let download := unary_plus (toFixed 1 (fadd (fmul r2 (fsub 120 30)) 30)) in
  r3 <- Math_random ;;
  let upload := unary_plus (toFixed 1 (fadd (fmul r3 (fsub 60 10)) 10)) in
  r4 <- Math_random ;;
  let accuracy :=
    unary_plus (toFixed 2 (fadd (fmul r4 (fsub (lit (999 # 10)) 97)) 97)) in
  ret {| ping := ping; download := download; upload := upload;
         accuracy := accuracy |}.

(** The objects the two functions return, as JavaScript values. *)
Definition SystemLoad_val (l : SystemLoad) : jsval :=
  VObject [("cpuCount", VNumber (Num (inject_Z (Z.of_nat (cpuCount l)))));
           ("avgLoad", VNumber (Num (avgLoad l)));
           ("freeMem", VString (freeMem l))]%string.

Definition SpeedStats_val (s : SpeedStats) : jsval :=
  VObject [("ping", VNumber (ping s));
           ("download", VNumber (download s));
           ("upload", VNumber (upload s));
           ("accuracy", VNumber (accuracy s))]%string.

(** ** [server.js]: middleware and API routes *)
Module Express.
Open Scope string_scope.

Fixpoint lookup (name : string) (hs : list (string * string)) : option string :=
  match hs with
  | [] => None
  | (k, v) :: hs' => if String.eqb k name then Some v else lookup name hs'
  end.

(** [req.headers[name]]. *)
Definition header (name : string) (req : Request) : option string :=
  lookup name (req_headers req).

(** A header that is present and not empty (a truthy [req.headers[name]]). *)
Definition has_value (name : string) (req : Request) : bool :=
  match header name req with
  | Some v => negb (String.eqb v "")
  | None => false
  end.

Definition get_or_head (m : Method) : bool :=
  match m with
  | GET | HEAD => true
  | _ => false
  end.

(** [req.fresh], which [res.send] consults: only a GET or HEAD request
    that carries [If-None-Match] or [If-Modified-Since] can be fresh, and
    it is when its validators match the body's entity tag. *)
Definition req_fresh (rt : Runtime) (req : Request) (b : Body) : bool :=
  get_or_head (req_method req) &&
  (has_value "if-none-match" req || has_value "if-modified-since" req) &&
  validators_match rt req b.

(** [res.send(body)]: status 200, or 304 (and nothing written) when the
    request is fresh.  [res.json(value)] is [res.send] of the JSON text
    of the value. *)
Definition send (req : Request) (b : Body) : Js Response :=
  read (fun w =>
    {| statusCode := if req_fresh (runtime w) req b then 304 else 200;
       body := b |}).

Definition res_send (req : Request) (s : string) : Js Response :=
  send req (Text s).
Definition res_json (req : Request) (v : jsval) : Js Response :=
  send req (Json (to_json v)).

(** What is written to the client: nothing in answer to HEAD, nor with
    the statuses 204 and 304. *)
Definition written (req : Request) (r : Response) : option Body :=
  match req_method req with
  | HEAD => None
  | _ =>
      if Nat.eqb (statusCode r) 304 || Nat.eqb (statusCode r) 204 then None
      else Some (body r)
  end.

Definition Handler : Type := Request -> Js Response.

(** [app.get("/", ...)], lines 43-45. *)
Definition root_handler : Handler :=
  fun req => res_send req "⚡ Velocity Backend Active - Ready for Speed Test".

(** [app.get("/api/speedtest", ...)], lines 48-64. *)
Definition speedtest_handler : Handler :=
  fun req =>
    serverLoad <- getSystemLoad ;;
    stats <- generateSpeedStats ;;
    timestamp <- new_Date ;;
    name <- os_hostname ;;
    region <- process_env "REGION" ;;
    res_json req (VObject
      [("status", VString "success");
       ("timestamp", VDate timestamp);
       ("server", VObject
          [("name", VString name);
           ("region", VString (or_default region "primary"));
           ("load", VNumber (Num (avgLoad serverLoad)));
           ("cpuCount", VNumber (Num (inject_Z (Z.of_nat (cpuCount serverLoad)))));
           ("memoryFree", VString (freeMem serverLoad ++ "%"))]);
       ("data", SpeedStats_val stats)]).

(** [app.get("/api/health", ...)], lines 67-73. *)
Definition health_handler : Handler :=
  fun req =>
    up <- process_uptime ;;
    load <- getSystemLoad ;;
    res_json req (VObject
      [("status", VString "OK");
       ("uptime", VNumber (Num up));
       ("load", SystemLoad_val load)]).

(** The routes, in the order the file registers them. *)
Definition app : list (Method * string * Handler) :=
  [(GET, "/", root_handler);
   (GET, "/api/speedtest", speedtest_handler);
   (GET, "/api/health", health_handler)].

(** Express matches a route's path ignoring letter case and one trailing
    slash, and lets a GET route answer HEAD requests.  The path of a
    request starts with a slash.  Express 4 and Express 5 match alike
    but for the path of two slashes, which Express 5 takes for the
    root route: [routed_path] leaves that to the runtime. *)
Definition lower (c : ascii) : ascii :=
  let n := nat_of_ascii c in
  if (65 <=? n)%nat && (n <=? 90)%nat then ascii_of_nat (n + 32) else c.

Fixpoint lowercase (s : string) : string :=
  match s with
  | EmptyString => EmptyString
  | String c t => String (lower c) (lowercase t)
  end.

Fixpoint strip_slash (s : string) : string :=
  match s with
  | EmptyString => EmptyString
  | String c t =>
      if Ascii.eqb c "/" && String.eqb t "" then EmptyString
      else String c (strip_slash t)
  end.

Definition path_matches (pattern path : string) : bool :=
  String.eqb (strip_slash (lowercase path)) (strip_slash (lowercase pattern)).

Definition method_matches (route req : Method) : bool :=
  match route, req with
  | GET, GET | GET, HEAD | HEAD, HEAD | POST, POST | PUT, PUT
  | DELETE, DELETE | PATCH, PATCH | OPTIONS, OPTIONS => true
  | _, _ => false
  end.

Fixpoint find_route (rs : list (Method * string * Handler)) (m : Method) (p : string)
  : option Handler :=
  match rs with
  | [] => None
  | (rm, rp, h) :: rs' =>
      if method_matches rm m && path_matches rp p then Some h
      else find_route rs' m p
  end.

Definition method_name (m : Method) : string :=
  match m with
  | GET => "GET" | HEAD => "HEAD" | POST => "POST" | PUT => "PUT"
  | DELETE => "DELETE" | PATCH => "PATCH" | OPTIONS => "OPTIONS"
  end.

(** The middleware of lines 20-23, which every request passes before the
    routes, in the order of the file.  [helmet()] and [compression()]
    only touch headers and the encoding of what is written; [cors()]
    ends every OPTIONS request itself, with status 204; [express.json()]
    looks at a request that has a body (one that carries
    [Transfer-Encoding] or [Content-Length]) and may end it with an
    error.  The result is the answer of the middleware that ended the
    request, [None] when the request gets to the routes. *)
Definition has_body (req : Request) : bool :=
  match header "transfer-encoding" req, header "content-length" req with
  | None, None => false
  | _, _ => true
  end.

Definition cors (req : Request) : option Response :=
  match req_method req with
  | OPTIONS => Some {| statusCode := 204; body := Text "" |}
  | _ => None
  end.

Definition express_json (rt : Runtime) (req : Request) : option Response :=
  if has_body req then json_refusal rt req else None.

Definition middleware (rt : Runtime) (req : Request) : option Response :=
  match cors req with
  | Some r => Some r
  | None => express_json rt req
  end.

Definition routed_path (rt : Runtime) (p : string) : string :=
  if String.eqb p "//" && double_slash_is_root rt then "/" else p.

(** The routes proper: the first matching one answers; with no match
    Express answers 404 (a page reading "Cannot GET /path"). *)
Definition route (req : Request) : Js Response :=
  fun w =>
    match find_route app (req_method req) (routed_path (runtime w) (req_path req)) with
    | Some h => h req w
    | None =>
        ({| statusCode := 404;
            body := Text ("Cannot " ++ method_name (req_method req) ++ " " ++ req_path req) |},
         w)
    end.

(** What the application does with a request: the middleware, then the
    routes. *)
Definition dispatch (req : Request) : Js Response :=
  fun w =>
    match middleware (runtime w) req with
    | Some r => (r, w)
    | None => route req w
    end.

End Express.
Import Express.

(** ** [server.js]: multi-server set-up

    The state of a process as far as the last block of the file goes:
    the cluster's live workers, the number of [cluster.fork()] calls made,
    whether the file's listener for the cluster's "exit" event is
    registered, what the HTTP server listens on, the error that ended
    the process if one did, and the console. *)
Module Cluster.
Open Scope string_scope.

Record Worker : Type := { worker_id : N; worker_pid : N }.

Record Proc : Type := {
  workers : list Worker;
  next_id : N;
  forked : nat;
  exit_listener : bool;
  listening : option ListenTarget;
  uncaught : option string;
  console : list string
}.

(** A process that has not run the block yet. *)
Definition fresh : Proc :=
  {| workers := []; next_id := 1; forked := 0; exit_listener := false;
     listening := None; uncaught := None; console := [] |}.

Definition console_log (line : string) (p : Proc) : Proc :=
  {| workers := workers p; next_id := next_id p; forked := forked p;
     exit_listener := exit_listener p; listening := listening p; uncaught := uncaught p;
     console := line :: console p |}.

(** [cluster.fork()]: one more worker, with the next id; [spawn_pid k]
    is the process id the operating system gives worker [k]. *)
Definition cluster_fork (spawn_pid : N -> N) (p : Proc) : Proc :=
  {| workers :=
       workers p ++ [{| worker_id := next_id p; worker_pid := spawn_pid (next_id p) |}];
     next_id := N.succ (next_id p);
     forked := S (forked p);
     exit_listener := exit_listener p; listening := listening p; uncaught := uncaught p;
     console := console p |}.

(** [for (let i = 0; i < cpuCount; i++) cluster.fork()], by the number
    of iterations left. *)
Fixpoint fork_loop (spawn_pid : N -> N) (todo : nat) (p : Proc) : Proc :=
  match todo with
  | O => p
  | S todo' => fork_loop spawn_pid todo' (cluster_fork spawn_pid p)
  end.

Definition cluster_on_exit (p : Proc) : Proc :=
  {| workers := workers p; next_id := next_id p; forked := forked p;
     exit_listener := true; listening := listening p; uncaught := uncaught p; console := console p |}.

(** An error nothing catches ends the process. *)
Definition die (code : string) (p : Proc) : Proc :=
  {| workers := workers p; next_id := next_id p; forked := forked p;
     exit_listener := exit_listener p; listening := listening p;
     uncaught := Some code; console := console p |}.

(** What [server.listen(port)] is to listen on.  A plain decimal
    numeral names that port if it is at most 65535, else [listen] throws
    [ERR_SOCKET_BAD_PORT]; any other text is left to [listen_text]. *)
Definition listen_target (rt : Runtime) (port : string) : option ListenTarget :=
  if negb (String.eqb port "") && all_digits port then
    if (value_of 0 port <=? 65535)%Z then Some (Port (Z.to_N (value_of 0 port)))
    else None
  else listen_text rt port.

(** [server.listen(port, callback)]: a bad port throws; a port or pipe
    the operating system refuses makes the server emit "error", which
    nothing in the file handles; otherwise the server listens and the
    callback runs. *)
Definition server_listen (rt : Runtime) (port : string) (callback : Proc -> Proc)
  (p : Proc) : Proc :=
  match listen_target rt port with
  | None => die "ERR_SOCKET_BAD_PORT" p
  | Some target =>
      match bind_error rt target with
      | Some code => die code p
      | None =>
          callback
            {| workers := workers p; next_id := next_id p; forked := forked p;
               exit_listener := exit_listener p; listening := Some target;
               uncaught := uncaught p; console := console p |}
      end
  end.

(** The listener of lines 85-88. *)
Definition exit_handler (spawn_pid : N -> N) (worker : Worker) (p : Proc) : Proc :=
  let p := console_log
    ("⚠️ Worker " ++ digits_of (Z.of_N (worker_pid worker)) ++ " died. Restarting...") p in
  cluster_fork spawn_pid p.

(** [const PORT = process.env.PORT || 5000], as the text it is used as. *)
Definition PORT (w : World) : string := or_default (env (process w) "PORT") "5000".

(** Lines 76-94: what a process does when it has loaded the file. *)
Definition main (isPrimary : bool) (spawn_pid : N -> N) (w : World) (p : Proc) : Proc :=
  if isPrimary then
    let cpuCount := List.length (cpus (os w)) in
    let p := console_log
      ("🚀 Master process started | PID: " ++ digits_of (Z.of_N (pid (process w)))) p in
    let p := console_log
      ("🧠 Spawning " ++ digits_of (Z.of_nat cpuCount) ++ " workers for load balancing...") p in
    let p := fork_loop spawn_pid cpuCount p in
    cluster_on_exit p
  else
    server_listen (runtime w) (PORT w)
      (console_log
         ("✅ Worker " ++ digits_of (Z.of_N (pid (process w))) ++ " running on port " ++ PORT w))
      p.

(** A worker process ends: Node takes it out of [cluster.workers] and
    emits "exit" on the cluster, which runs the listener if the file
    registered it. *)
Definition remove_worker (worker : Worker) (ws : list Worker) : list Worker :=
  filter (fun x => negb (N.eqb (worker_id x) (worker_id worker))) ws.

Definition worker_exit (spawn_pid : N -> N) (worker : Worker) (p : Proc) : Proc :=
  let p' :=
    {| workers := remove_worker worker (workers p); next_id := next_id p;
       forked := forked p; exit_listener := exit_listener p;
       listening := listening p; uncaught := uncaught p; console := console p |} in
  if exit_listener p then exit_handler spawn_pid worker p' else p'.

(** The states a primary process goes through, with the number of
    worker exits so far: after start-up, any live worker may exit at any
    time. *)
Inductive reachable (spawn_pid : N -> N) (w : World) : nat -> Proc -> Prop :=
| reach_start : reachable spawn_pid w 0 (main true spawn_pid w fresh)
| reach_exit (exits : nat) (p : Proc) (worker : Worker) :
    reachable spawn_pid w exits p -> In worker (workers p) ->
    reachable spawn_pid w (S exits) (worker_exit spawn_pid worker p).

End Cluster.
Import Cluster.

(** ** The latency prober of the specification

    [server.js] measures no latency: the specification describes a
    prober (its section 4.3) that the repository does not contain.  The
    definitions of this module follow the specification's words, for
    the one claim that is about that prober. *)
Module LatencyProber.
Open Scope Q_scope.

(** Modelled from the spec: the samples in ascending order, which the
    median of the missing prober is taken from (insertion sort). *)
Fixpoint insert (x : Q) (l : list Q) : list Q :=
  match l with
  | [] => [x]
  | y :: l' => if Qle_bool x y then x :: l else y :: insert x l'
  end.

Definition sort (l : list Q) : list Q := fold_right insert [] l.

(** Modelled from the spec: the median of the latency samples, which
    the missing prober reports as ping ("ping (ms, chosen as median of
    latency samples)"): the middle one of the samples in ascending order,
    the mean of the two middle ones when their number is even. *)
Definition median (l : list Q) : Q :=
  let s := sort l in
  let n := List.length s in
  if Nat.even n then (nth (n / 2 - 1) s 0 + nth (n / 2) s 0) / 2
  else nth (n / 2) s 0.

(** Modelled from the spec: the absolute differences between
    consecutive samples, which the jitter of the missing prober is the
    mean of. *)
Fixpoint abs_diffs (l : list Q) : list Q :=
  match l with
  | a :: (b :: _) as t => Qabs (b - a) :: abs_diffs t
  | _ => []
  end.

Definition sum (l : list Q) : Q := fold_right Qplus 0 l.

(** Modelled from the spec: the jitter of the missing prober, "mean
    absolute difference between consecutive samples"; 0 when there is
    one sample only. *)
Definition jitter (l : list Q) : Q :=
  match abs_diffs l with
  | [] => 0
  | d => sum d / inject_Z (Z.of_nat (List.length d))
  end.

(** Modelled from the spec: the part of the missing result record that
    the prober fills in: ping, jitter and the number of samples. *)
Record LatencyResult : Type := {
  result_ping : Q;
  result_jitter : Q;
  result_samples : nat
}.

(** Modelled from the spec: the recorded sample set of the missing
    prober: the round-trip times of the probes, in milliseconds, without
    the first ("discard the first probe (cold-start bias)"). *)
Definition recorded (round_trips : list Q) : list Q := tl round_trips.

(** Modelled from the spec: the result of the missing [probe], from the
    round-trip times of its probes; there is none when no sample is
    left.  Deadlines and the [degraded] flag are left out. *)
Definition probe (round_trips : list Q) : option LatencyResult :=
  match recorded round_trips with
  | [] => None
  | samples =>
      Some {| result_ping := median samples;
              result_jitter := jitter samples;
              result_samples := List.length samples |}
  end.

End LatencyProber.

(** ** Vocabulary of the properties *)

(** Every draw of [Math.random()] is at least 0 and below 1. *)
Definition unit_draws (w : World) : Prop :=
  forall i : nat, (0 <= random w i)%Q /\ (random w i < 1)%Q.

(** [Math.random() * (hi - lo) + lo], printed with [digits] decimals and
    converted back to a number: the shape of the four lines of
    [generateSpeedStats]. *)
Definition scaled_draw (r lo hi : Q) (digits : nat) : number :=
  unary_plus (toFixed digits (fadd (fmul r (fsub hi lo)) lo)).

(** The number written [n / 10^digits] in decimal. *)
Definition decimal (n : Z) (digits : nat) : Q := fl (n # Z.to_pos (pow10 digits)).

(** [x] is the number written with [digits] decimals whose digits,
    read as an integer, lie between [lo] and [hi]. *)
Definition in_decimal_range (x : number) (digits : nat) (lo hi : Z) : Prop :=
  exists n : Z, x = Num (decimal n digits) /\ (lo <= n <= hi)%Z.

(** [lo <= x && x <= hi] as JavaScript evaluates it. *)
Definition within (x : number) (lo hi : Q) : Prop :=
  match x with
  | Num q => (lo <= q)%Q /\ (q <= hi)%Q
  | NaN => False
  end.

(** Membership along a path of keys. *)
Fixpoint at_path (ks : list string) (j : json) : option json :=
  match ks with
  | [] => Some j
  | k :: ks' =>
      match member k j with
      | Some j' => at_path ks' j'
      | None => None
      end
  end.

Definition json_of (r : Response) : json :=
  match body r with
  | Json j => j
  | Text _ => JNull
  end.

(** The [status] member of a response, if it has one. *)
Definition api_status (r : Response) : option string :=
  match body r with
  | Json j =>
      match member "status" j with
      | Some (JString s) => Some s
      | _ => None
      end
  | Text _ => None
  end.

Definition status_is_listed (r : Response) : bool :=
  match api_status r with
  | Some s => String.eqb s "success" || String.eqb s "partial" || String.eqb s "failed"
  | None => false
  end.

(** A JSON number that is an integer. *)
Definition is_integer (j : json) : bool :=
  match j with
  | JNumber q => Pos.eqb (Qden (Qred q)) 1
  | _ => false
  end.

(** A refusal for lack of capacity: HTTP 503, or a body that says so. *)
Definition is_capacity_failure (r : Response) : bool :=
  Nat.eqb (statusCode r) 503 ||
  match body r with
  | Json j =>
      match member "error" j with
      | Some (JString s) => String.eqb s "Capacity"
      | _ => false
      end
  | Text _ => false
  end.

Definition count (f : Response -> bool) (rs : list Response) : nat :=
  List.length (filter f rs).

(** The next [k] draws are the same in two worlds. *)
Definition same_draws (k : nat) (w1 w2 : World) : Prop :=
  forall i : nat, (i < k)%nat -> random w1 (drawn w1 + i) = random w2 (drawn w2 + i).

(** A request that the middleware lets pass to the routes. *)
Definition reaches_routes (w : World) (req : Request) : Prop :=
  middleware (runtime w) req = None.

(** A request without validators: it asks for the answer whatever the
    client may have cached. *)
Definition unconditional (req : Request) : Prop :=
  has_value "if-none-match" req = false /\ has_value "if-modified-since" req = false.

(** The values the two JSON handlers hand to [res.json] in world [w]. *)
Definition speedtest_value (w : World) : jsval :=
  VObject
    [("status", VString "success");
     ("timestamp", VDate (clock w));
     ("server", VObject
        [("name", VString (hostname (os w)));
         ("region", VString (or_default (env (process w) "REGION") "primary"));
         ("load", VNumber (Num (avgLoad (run getSystemLoad w))));
         ("cpuCount", VNumber (Num (inject_Z (Z.of_nat (cpuCount (run getSystemLoad w))))));
         ("memoryFree", VString (freeMem (run getSystemLoad w) ++ "%"))]);
     ("data", SpeedStats_val (run generateSpeedStats w))]%string.

Definition health_value (w : World) : jsval :=
  VObject
    [("status", VString "OK");
     ("uptime", VNumber (Num (uptime (process w))));
     ("load", SystemLoad_val (run getSystemLoad w))]%string.

Definition banner : string := "⚡ Velocity Backend Active - Ready for Speed Test".

(** [j] is the number written with [digits] decimals that is nearest to
    the draw [r] scaled into [lo, hi] (as binary64 arithmetic computes
    it), its digits [n] lying in [nlo, nhi]. *)
Definition metric_from_draw (j : option json) (r lo hi : Q) (digits : nat) (nlo nhi : Z)
  : Prop :=
  exists n : Z,
    j = Some (JNumber (decimal n digits)) /\ (nlo <= n <= nhi)%Z /\
    (Qabs (inject_Z n / inject_Z (pow10 digits) - fadd (fmul r (fsub hi lo)) lo)
     <= 1 / (2 * inject_Z (pow10 digits)))%Q.

(** [j] holds, under [data], the four metrics made from the next four
    draws of [w]. *)
Definition holds_metrics (w : World) (j : json) : Prop :=
  let r := fun i : nat => random w (drawn w + i) in
  metric_from_draw (at_path ["data"; "ping"]%string j) (r 0%nat) 8 40 1 80 400 /\
  metric_from_draw (at_path ["data"; "download"]%string j) (r 1%nat) 30 120 1 300 1200 /\
  metric_from_draw (at_path ["data"; "upload"]%string j) (r 2%nat) 10 60 1 100 600 /\
  metric_from_draw (at_path ["data"; "accuracy"]%string j) (r 3%nat)
    97 (lit (999 # 10)) 2 9700 9990.

(** The share of memory that is free, in percent, as binary64
    arithmetic computes it. *)
Definition free_percent (o : OS) : Q :=
  fmul (fdiv (fl (inject_Z (Z.of_N (freemem o)))) (fl (inject_Z (Z.of_N (totalmem o))))) 100.

(** [s] is a numeral with two decimals, between 0 and 100, nearest to [x]. *)
Definition percent_text (s : string) (x : Q) : Prop :=
  exists n : Z,
    parse_decimal s = Some (n # 100) /\ (0 <= n <= 10000)%Z /\
    (Qabs (inject_Z n / 100 - x) <= 1 # 200)%Q.

(** The members [count], [load] and [mem] are the snapshot of the
    system load of [o]: the number of CPUs, the load average of the last
    minute, and the free memory in percent followed by [suffix]. *)
Definition holds_load (o : OS) (count load mem : option json) (suffix : string) : Prop :=
  count = Some (JNumber (inject_Z (Z.of_nat (List.length (cpus o))))) /\
  load = Some (JNumber (fst (fst (loadavg o)))) /\
  exists s : string,
    mem = Some (JString (s ++ suffix)) /\ percent_text s (free_percent o).

(** An answer that hands out a session. *)
Definition gives_session (r : Response) : bool :=
  match body r with
  | Json j =>
      match member "sessionId" j with
      | Some _ => true
      | None => false
      end
  | Text _ => false
  end.

(** *** Concrete worlds and requests, for examples *)

Definition sample_os : OS :=
  {| cpus := [ {| model := "cpu"; speed := 2400 |}; {| model := "cpu"; speed := 2400 |} ];
     loadavg := (1 # 2, 1 # 4, 1 # 8)%Q;
     freemem := 3221225472;
     usedmem := 5368709120;
     hostname := "velocity-1" |}.

Definition sample_process : Process :=
  {| pid := 4242; uptime := (25 # 2)%Q; env := fun _ => None |}.

(** A runtime for the examples: [express.json()] refuses, with 400, a
    body sent as [application/json] whose first character opens neither
    an object nor an array; validators match when [If-None-Match] is a
    star; two slashes are not the root (Express 4); a text that is no
    numeral is taken for a pipe path; the operating system grants every
    port but 80. *)
Definition sample_runtime : Runtime :=
  {| json_refusal := fun req =>
       match header "content-type" req, req_body req with
       | Some type, String c _ =>
           if String.eqb type "application/json"
              && negb (Ascii.eqb c "{" || Ascii.eqb c "[")
           then Some {| statusCode := 400; body := Text "Bad Request" |}
           else None
       | _, _ => None
       end;
     validators_match := fun req _ =>
       match header "if-none-match" req with
       | Some v => String.eqb v "*"
       | None => false
       end;
     double_slash_is_root := false;
     listen_text := fun s => Some (Pipe s);
     bind_error := fun t =>
       match t with
       | Port 80 => Some "EACCES"%string
       | _ => None
       end |}.

(** Draws 0, 1/8, 2/8, ... 7/8 and again. *)
Definition sample_random (i : nat) : Q := (Z.of_nat (i mod 8) # 8)%Q.

Definition sample_world : World :=
  {| os := sample_os; process := sample_process; clock := 1700000000000;
     random := sample_random; drawn := 0; runtime := sample_runtime |}.

Definition get (path : string) : Request :=
  {| req_method := GET; req_path := path; req_query := [];
     req_headers := []; req_body := "" |}.

Definition post (path : string) : Request :=
  {| req_method := POST; req_path := path; req_query := [];
     req_headers := []; req_body := "" |}.

(** [req] with one more header, and [req] carrying [text] as a JSON
    body. *)
Definition with_header (name value : string) (req : Request) : Request :=
  {| req_method := req_method req; req_path := req_path req; req_query := req_query req;
     req_headers := (name, value) :: req_headers req; req_body := req_body req |}.

Definition with_json_body (text : string) (req : Request) : Request :=
  {| req_method := req_method req; req_path := req_path req; req_query := req_query req;
     req_headers :=
       ("content-type", "application/json")
       :: ("content-length", digits_of (Z.of_nat (String.length text)))
       :: req_headers req;
     req_body := text |}.

Definition sample_pids (k : N) : N := (5000 + k)%N.

(** The sample world a moment later, with less memory free. *)
Definition later_world : World :=
  {| os := {| cpus := cpus sample_os; loadavg := loadavg sample_os;
              freemem := 1073741824; usedmem := 7516192768;
              hostname := hostname sample_os |};
     process := sample_process; clock := 1700000000250;
     random := sample_random; drawn := 0; runtime := sample_runtime |}.

(** The sample world at another time, in another process on a host of
    another name, further on in the same periodic sequence of draws. *)
Definition shifted_world : World :=
  {| os := {| cpus := cpus sample_os; loadavg := loadavg sample_os;
              freemem := freemem sample_os; usedmem := usedmem sample_os;
              hostname := "velocity-2" |};
     process := {| pid := 4243; uptime := (99 # 1)%Q; env := fun _ => Some "eu"%string |};
     clock := 1700000360000;
     random := sample_random; drawn := 8; runtime := sample_runtime |}.

(** *** Notions the proofs use *)

(** Worker ids are distinct and below the next id to be given. *)
Definition ids_ok (p : Proc) : Prop :=
  NoDup (map worker_id (workers p)) /\
  Forall (fun x => (worker_id x < next_id p)%N) (workers p).

Definition digits_only (s : string) : Prop :=
  exists u, NilEmpty.uint_of_string s = Some u.

(** The value of a decimal numeral, most significant digit first. *)
Fixpoint uint_val (acc : Z) (u : Decimal.uint) : Z :=
  match u with
  | Decimal.Nil => acc
  | Decimal.D0 l => uint_val (10 * acc) l
  | Decimal.D1 l => uint_val (10 * acc + 1) l
  | Decimal.D2 l => uint_val (10 * acc + 2) l
  | Decimal.D3 l => uint_val (10 * acc + 3) l
  | Decimal.D4 l => uint_val (10 * acc + 4) l
  | Decimal.D5 l => uint_val (10 * acc + 5) l
  | Decimal.D6 l => uint_val (10 * acc + 6) l
  | Decimal.D7 l => uint_val (10 * acc + 7) l
  | Decimal.D8 l => uint_val (10 * acc + 8) l
  | Decimal.D9 l => uint_val (10 * acc + 9) l
  end.


(** ** Vocabulary of further properties *)

(** [a <= b] on numbers, as JavaScript evaluates it ([NaN] compares
    false). *)
Definition number_le (a b : number) : Prop :=
  match a, b with
  | Num x, Num y => (x <= y)%Q
  | _, _ => False
  end.

(** A draw that produces the decimal [n]: the one that
    scales to [n / 10^digits], or a little below it for the top value
    (draws stay below 1); rounded, so that it is a binary64 value. *)
Definition draw_for (lo hi : Q) (digits : nat) (nhi n : Z) : Q :=
  let target :=
    if (n <? nhi)%Z then (n # Z.to_pos (pow10 digits))%Q
    else ((10 * n - 4) # Z.to_pos (pow10 (S digits)))%Q in
  fl ((target - lo) / (hi - lo))%Q.

(** That draw is a binary64 value in [0, 1) and gives [n]. *)
Definition attains (lo hi : Q) (digits : nat) (nhi n : Z) : bool :=
  let r := draw_for lo hi digits nhi n in
  Qle_bool 0 r && negb (Qle_bool 1 r) && Qeq_bool (fl r) r &&
  Qle_bool 0 (fadd (fmul r (fsub hi lo)) lo) &&
  (nearest_scaled digits (fadd (fmul r (fsub hi lo)) lo) =? n)%Z.

(** [f] holds of the [n] integers from [lo] on. *)
Fixpoint range_check (f : Z -> bool) (lo : Z) (n : nat) : bool :=
  match n with
  | O => true
  | S n' => f lo && range_check f (lo + 1) n'
  end.


(** A generator that yields the four given draws, then the last again. *)
Definition four_draws (r1 r2 r3 r4 : Q) (i : nat) : Q :=
  match i with
  | 0%nat => r1
  | 1%nat => r2
  | 2%nat => r3
  | _ => r4
  end.

Definition world_drawing (r1 r2 r3 r4 : Q) : World :=
  {| os := sample_os; process := sample_process; clock := 1700000000000;
     random := four_draws r1 r2 r3 r4; drawn := 0; runtime := sample_runtime |}.


(** The path Express compares: letter case and one trailing slash
    dropped (["/"] becomes the empty string). *)
Definition normal_path (p : string) : string := strip_slash (lowercase p).

Definition asks_for (path : string) (req : Request) : bool :=
  get_or_head (req_method req) && String.eqb (normal_path (req_path req)) path.

(** The status [res.send] gives the answer to [req] with body [b]. *)
Definition send_status (w : World) (req : Request) (b : Body) : nat :=
  if req_fresh (runtime w) req b then 304 else 200.

(** A request that gets to the speed-test handler. *)
Definition runs_speedtest (w : World) (req : Request) : bool :=
  match middleware (runtime w) req with
  | None => asks_for "/api/speedtest" req
  | Some _ => false
  end.

(** The text [s] is a decimal numeral that names the port [n]. *)
Definition names_port (s : string) (n : N) : Prop :=
  s <> ""%string /\ all_digits s = true /\ value_of 0 s = Z.of_N n /\ (n <= 65535)%N.

(** POST /sessions, the request the specification gives for opening a
    session. *)
Definition opens_session (req : Request) : Prop :=
  req_method req = POST /\ normal_path (req_path req) = "/sessions"%string.

(** The world after [k] more draws. *)
Definition advance (k : nat) (w : World) : World :=
  {| os := os w; process := process w; clock := clock w;
     random := random w; drawn := drawn w + k; runtime := runtime w |}.

(** Requests served by one worker, one after the other, each starting
    where the one before left the world (the clock and the operating
    system are taken not to move in between: the program does not move
    them). *)
Fixpoint serve_seq (reqs : list Request) : Js (list Response) :=
  match reqs with
  | [] => ret []
  | req :: rest =>
      a <- dispatch req ;;
      more <- serve_seq rest ;;
      ret (a :: more)
  end.

(** How many of the requests get to the speed-test handler. *)
Definition speedtests (w : World) (reqs : list Request) : nat :=
  List.length (filter (runs_speedtest w) reqs).

(* ================================================================== *)
(** * Part II: lemmas and theorems *)
(* ================================================================== *)

(** ** Facts about binary64 rounding *)
Section FloatFacts.
Local Open Scope Q_scope.

(** *** Powers of two *)
Lemma pow2_pos e : 0 < pow2 e.
Proof. apply Qpower_0_lt. reflexivity. Qed.

Lemma pow2_add a b : pow2 (a + b) == pow2 a * pow2 b.
Proof. apply Qpower_plus. discriminate. Qed.

Lemma pow2_le a b : (a <= b)%Z -> pow2 a <= pow2 b.
Proof. intros. apply Qpower_le_compat_l; [assumption | discriminate]. Qed.

Lemma pow2_lt a b : (a < b)%Z -> pow2 a < pow2 b.
Proof. intros. apply Qpower_lt_compat_l; [assumption | reflexivity]. Qed.

Lemma pow2_Z a : (0 <= a)%Z -> pow2 a == inject_Z (2 ^ a).
Proof. intros. unfold pow2. rewrite Zpower_Qpower by assumption. reflexivity. Qed.

Lemma pow2_sub a b : pow2 (a - b) == pow2 a / pow2 b.
Proof.
  unfold Z.sub. rewrite pow2_add. unfold pow2 at 2. rewrite Qpower_opp. reflexivity.
Qed.

(** *** The binade of a positive rational *)
Lemma pow2_frac a b :
  (0 <= a)%Z -> (0 <= b)%Z -> pow2 (a - b) == inject_Z (2 ^ a) / inject_Z (2 ^ b).
Proof. intros. rewrite pow2_sub, !pow2_Z by assumption. reflexivity. Qed.

Lemma Zfrac_le (a b c d : Z) :
  (0 < b)%Z -> (0 < d)%Z -> (a * d <= c * b)%Z ->
  inject_Z a / inject_Z b <= inject_Z c / inject_Z d.
Proof.
  intros Hb Hd H.
  assert (0 < inject_Z b) by (rewrite <- (Zlt_Qlt 0); assumption).
  assert (0 < inject_Z d) by (rewrite <- (Zlt_Qlt 0); assumption).
  apply Qle_shift_div_l; [assumption|].
  unfold Qdiv. rewrite <- Qmult_assoc, (Qmult_comm (/ _)), Qmult_assoc.
  apply Qle_shift_div_r; [assumption|].
  rewrite <- !inject_Z_mult, <- Zle_Qle. lia.
Qed.

Lemma Zfrac_lt (a b c d : Z) :
  (0 < b)%Z -> (0 < d)%Z -> (a * d < c * b)%Z ->
  inject_Z a / inject_Z b < inject_Z c / inject_Z d.
Proof.
  intros Hb Hd H.
  assert (0 < inject_Z b) by (rewrite <- (Zlt_Qlt 0); assumption).
  assert (0 < inject_Z d) by (rewrite <- (Zlt_Qlt 0); assumption).
  apply Qlt_shift_div_l; [assumption|].
  unfold Qdiv. rewrite <- Qmult_assoc, (Qmult_comm (/ _)), Qmult_assoc.
  apply Qlt_shift_div_r; [assumption|].
  rewrite <- !inject_Z_mult, <- Zlt_Qlt. lia.
Qed.

Lemma binade_spec x : 0 < x -> pow2 (binade x) <= x /\ x < pow2 (binade x + 1).
Proof.
  intros Hx. destruct x as [n d].
  assert (Hn : (0 < n)%Z) by (unfold Qlt in Hx; simpl in Hx; lia).
  unfold binade. cbn [Qnum Qden].
  set (ln := Z.log2 n). set (ld := Z.log2 (Zpos d)).
  assert (Hln : (2 ^ ln <= n < 2 ^ (ln + 1))%Z).
  { unfold ln. pose proof (Z.log2_spec n Hn) as H. rewrite <- Z.add_1_r in H. lia. }
  assert (Hld : (2 ^ ld <= Zpos d < 2 ^ (ld + 1))%Z).
  { unfold ld. pose proof (Z.log2_spec (Zpos d) ltac:(lia)) as H.
    rewrite <- Z.add_1_r in H. lia. }
  assert (H0ln : (0 <= ln)%Z) by apply Z.log2_nonneg.
  assert (H0ld : (0 <= ld)%Z) by apply Z.log2_nonneg.
  assert (Hpl : (0 < 2 ^ ln)%Z) by (apply Z.pow_pos_nonneg; lia).
  assert (Hpd : (0 < 2 ^ ld)%Z) by (apply Z.pow_pos_nonneg; lia).
  assert (Hq : n # d == inject_Z n / inject_Z (Zpos d)) by apply Qmake_Qdiv.
  assert (Hup : n # d < pow2 (ln - ld + 1)).
  { rewrite Hq. replace (ln - ld + 1)%Z with ((ln + 1) - ld)%Z by lia.
    rewrite pow2_frac by lia. apply Zfrac_lt; try lia. nia. }
  assert (Hlo : pow2 (ln - ld - 1) <= n # d).
  { rewrite Hq. replace (ln - ld - 1)%Z with (ln - (ld + 1))%Z by lia.
    rewrite pow2_frac by lia. apply Zfrac_le; try lia. nia. }
  destruct (Qle_bool (pow2 (ln - ld)) (n # d)) eqn:E.
  - apply Qle_bool_iff in E. split; assumption.
  - split; [assumption|].
    replace (ln - ld - 1 + 1)%Z with (ln - ld)%Z by lia.
    apply Qnot_le_lt. intro C. apply Qle_bool_iff in C. congruence.
Qed.

Lemma binade_unique x e : pow2 e <= x -> x < pow2 (e + 1) -> binade x = e.
Proof.
  intros Hlo Hhi.
  assert (Hx : 0 < x) by (eapply Qlt_le_trans; [apply (pow2_pos e) | exact Hlo]).
  destruct (binade_spec x Hx) as [Blo Bhi].
  destruct (Z.lt_trichotomy (binade x) e) as [C | [C | C]]; [| assumption |].
  - exfalso. assert (pow2 (binade x + 1) <= pow2 e) by (apply pow2_le; lia).
    apply (Qlt_irrefl x). eapply Qlt_le_trans; [exact Bhi|]. eapply Qle_trans; eauto.
  - exfalso. assert (pow2 (e + 1) <= pow2 (binade x)) by (apply pow2_le; lia).
    apply (Qlt_irrefl x). eapply Qlt_le_trans; [exact Hhi|]. eapply Qle_trans; eauto.
Qed.

Lemma binade_mono x y : 0 < x -> x <= y -> (binade x <= binade y)%Z.
Proof.
  intros Hx Hxy.
  assert (Hy : 0 < y) by (eapply Qlt_le_trans; eauto).
  destruct (binade_spec x Hx) as [Xlo Xhi].
  destruct (binade_spec y Hy) as [Ylo Yhi].
  destruct (Z_le_gt_dec (binade x) (binade y)) as [|C]; [assumption|exfalso].
  assert (pow2 (binade y + 1) <= pow2 (binade x)) by (apply pow2_le; lia).
  apply (Qlt_irrefl y). eapply Qlt_le_trans; [exact Yhi|].
  eapply Qle_trans; [eassumption|]. eapply Qle_trans; eauto.
Qed.

(** *** Rounding to the nearest integer, ties to even *)
Lemma rne_bounds x : (Qfloor x <= rne x <= Qfloor x + 1)%Z.
Proof.
  unfold rne. destruct (Qcompare _ _); [destruct (Z.even _)| |]; lia.
Qed.

Lemma rne_Z k : rne (inject_Z k) = k.
Proof.
  unfold rne. rewrite Qfloor_Z.
  destruct (Qcompare_spec (inject_Z k - inject_Z k) (1 # 2)) as [H|H|H]; try reflexivity;
    exfalso; lra.
Qed.

Lemma rne_mono x y : x <= y -> (rne x <= rne y)%Z.
Proof.
  intros Hxy.
  pose proof (Qfloor_resp_le x y Hxy) as Hf.
  pose proof (rne_bounds x) as Bx. pose proof (rne_bounds y) as By.
  destruct (Z.eq_dec (Qfloor x) (Qfloor y)) as [E|NE]; [|lia].
  unfold rne in *. rewrite <- E in *.
  destruct (Qcompare_spec (x - inject_Z (Qfloor x)) (1 # 2)) as [Hx|Hx|Hx];
  destruct (Qcompare_spec (y - inject_Z (Qfloor x)) (1 # 2)) as [Hy|Hy|Hy];
  try destruct (Z.even (Qfloor x)); try lia; exfalso; lra.
Qed.

Lemma rne_near x : Qabs (inject_Z (rne x) - x) <= 1 # 2.
Proof.
  pose proof (Qfloor_le x) as Hlo. pose proof (Qlt_floor x) as Hhi.
  rewrite inject_Z_plus in Hhi. change (inject_Z 1) with 1 in Hhi.
  apply Qabs_Qle_condition. unfold rne.
  destruct (Qcompare_spec (x - inject_Z (Qfloor x)) (1 # 2)) as [H|H|H];
    [destruct (Z.even (Qfloor x))| |];
    rewrite ?inject_Z_plus; change (inject_Z 1) with 1; split; lra.
Qed.

(** *** Rounding on a grid of step [q] *)
Lemma grid_ge q k x : 0 < q -> inject_Z k * q <= x -> inject_Z k * q <= inject_Z (rne (x / q)) * q.
Proof.
  intros Hq H. apply Qmult_le_compat_r; [|lra].
  rewrite <- Zle_Qle. rewrite <- (rne_Z k) at 1. apply rne_mono.
  apply Qle_shift_div_l; assumption.
Qed.

Lemma grid_le q k x : 0 < q -> x <= inject_Z k * q -> inject_Z (rne (x / q)) * q <= inject_Z k * q.
Proof.
  intros Hq H. apply Qmult_le_compat_r; [|lra].
  rewrite <- Zle_Qle. rewrite <- (rne_Z k). apply rne_mono.
  apply Qle_shift_div_r; assumption.
Qed.

Lemma pow2_multiple a b : (b <= a)%Z -> pow2 a == inject_Z (2 ^ (a - b)) * pow2 b.
Proof.
  intros. rewrite <- pow2_Z by lia. rewrite <- pow2_add. f_equiv. lia.
Qed.

Lemma quantum_pos x : 0 < quantum x.
Proof. apply pow2_pos. Qed.

Lemma fl_0 : fl 0 = 0.
Proof. reflexivity. Qed.

Lemma fl_pos x : 0 < x -> fl x == inject_Z (rne (x / quantum x)) * quantum x.
Proof.
  intros Hx. unfold fl.
  destruct (Qeq_bool x 0) eqn:E.
  - apply Qeq_bool_iff in E. lra.
  - rewrite Qred_correct.
    assert (Hle : Qle_bool 0 x = true) by (apply Qle_bool_iff; lra).
    rewrite Hle. 
    assert (Ha : Qabs x = x).
    { destruct x as [n d]. unfold Qabs. f_equal. apply Z.abs_eq.
      unfold Qlt in Hx. simpl in Hx. lia. }
    rewrite Ha. reflexivity.
Qed.

Lemma fl_nonneg x : 0 <= x -> 0 <= fl x.
Proof.
  intros Hx. destruct (Qlt_le_dec 0 x) as [H|H].
  - rewrite fl_pos by assumption.
    apply Qle_trans with (inject_Z 0 * quantum x); [change (inject_Z 0) with 0; lra|].
    apply grid_ge; [apply quantum_pos|]. change (inject_Z 0) with 0. lra.
  - assert (E : x == 0) by lra. unfold fl.
    apply Qeq_bool_iff in E. rewrite E. lra.
Qed.

(** Rounding to binary64 is monotone (on the non-negative numbers,
    which is all this program computes with). *)
Theorem fl_mono x y : 0 <= x -> x <= y -> fl x <= fl y.
Proof.
  intros Hx Hxy.
  destruct (Qlt_le_dec 0 x) as [Hpos|Hz].
  2:{ assert (E : x == 0) by lra. unfold fl at 1. apply Qeq_bool_iff in E. rewrite E.
      apply fl_nonneg. lra. }
  assert (Hy : 0 < y) by lra.
  rewrite (fl_pos x Hpos), (fl_pos y Hy).
  pose proof (binade_mono x y Hpos Hxy) as Hb.
  destruct (binade_spec x Hpos) as [Xlo Xhi].
  destruct (binade_spec y Hy) as [Ylo Yhi].
  unfold quantum.
  destruct (Z.eq_dec (Z.max (binade x - 52) (-1074)) (Z.max (binade y - 52) (-1074))) as [E|NE].
  - rewrite E. apply Qmult_le_compat_r; [|apply Qlt_le_weak, pow2_pos].
    rewrite <- Zle_Qle. apply rne_mono.
    apply Qmult_le_compat_r; [assumption|]. apply Qlt_le_weak, Qinv_lt_0_compat, pow2_pos.
  - set (qx := Z.max (binade x - 52) (-1074)) in *.
    set (qy := Z.max (binade y - 52) (-1074)) in *.
    assert (Hq : (qx < qy)%Z) by lia.
    assert (Hex : (binade x + 1 <= binade y)%Z) by lia.
    apply Qle_trans with (pow2 (binade y)).
    + rewrite (pow2_multiple (binade y) qx) by lia.
      apply grid_le; [apply pow2_pos|].
      rewrite <- pow2_multiple by lia.
      apply Qle_trans with (pow2 (binade x + 1)); [lra|]. apply pow2_le; lia.
    + rewrite (pow2_multiple (binade y) qy) by lia.
      apply grid_ge; [apply pow2_pos|].
      rewrite <- pow2_multiple by lia. assumption.
Qed.

(** *** Agreement with the machine's binary64 arithmetic

    The expressions of [generateSpeedStats] and [getSystemLoad],
    evaluated by the processor on sample draws (among them the largest
    number below 1) and by the model. *)
Example lit_99_9_agrees : Q_of_float 99.9 = Some (lit (999 # 10)).
Proof. vm_compute. reflexivity. Qed.

Example ping_agrees_at_largest_draw :
  Q_of_float (0x1.fffffffffffffp-1 * (40 - 8) + 8)
  = Some (fadd (fmul (lit ((2 ^ 53 - 1) # 2 ^ 53)) (fsub 40 8)) 8).
Proof. vm_compute. reflexivity. Qed.

Example download_agrees_at_one_tenth :
  Q_of_float (0.1 * (120 - 30) + 30)
  = Some (fadd (fmul (lit (1 # 10)) (fsub 120 30)) 30).
Proof. vm_compute. reflexivity. Qed.

Example upload_agrees_at_one_third :
  Q_of_float (1 / 3 * (60 - 10) + 10)
  = Some (fadd (fmul (fdiv 1 3) (fsub 60 10)) 10).
Proof. vm_compute. reflexivity. Qed.

Example accuracy_agrees_at_largest_draw :
  Q_of_float (0x1.fffffffffffffp-1 * (99.9 - 97) + 97)
  = Some (fadd (fmul (lit ((2 ^ 53 - 1) # 2 ^ 53)) (fsub (lit (999 # 10)) 97)) 97).
Proof. vm_compute. reflexivity. Qed.

Example accuracy_agrees_at_seven_tenths :
  Q_of_float (0.7 * (99.9 - 97) + 97)
  = Some (fadd (fmul (lit (7 # 10)) (fsub (lit (999 # 10)) 97)) 97).
Proof. vm_compute. reflexivity. Qed.

Example free_memory_agrees :
  Q_of_float (3221225472 / 8589934592 * 100)
  = Some (fmul (fdiv 3221225472 8589934592) 100).
Proof. vm_compute. reflexivity. Qed.

Example underflow_agrees :
  Q_of_float (0x3p-1074 * 0.5) = Some (fmul (3 * pow2 (-1074)) (1 # 2)).
Proof. vm_compute. reflexivity. Qed.

Lemma fl_compat_le lo x : 0 <= lo -> fl lo == lo -> lo <= x -> lo <= fl x.
Proof. intros H0 Hf H. rewrite <- Hf. apply fl_mono; assumption. Qed.

Lemma fl_compat_ge hi x : 0 <= x -> fl hi == hi -> x <= hi -> fl x <= hi.
Proof. intros H0 Hf H. rewrite <- Hf. apply fl_mono; assumption. Qed.

End FloatFacts.

(** ** Facts about [toFixed] and unary plus *)
Section NumberStrings.
Local Open Scope string_scope.

Lemma digit_not_dot c u u' : uint_of_char c (Some u) = Some u' -> Ascii.eqb c "." = false.
Proof.
  destruct c as [[|] [|] [|] [|] [|] [|] [|] [|]]; simpl; intros H;
    try discriminate H; reflexivity.
Qed.

Lemma digit_char_ok c u : (exists u', uint_of_char c (Some u) = Some u') ->
  forall v, exists v', uint_of_char c (Some v) = Some v'.
Proof.
  destruct c as [[|] [|] [|] [|] [|] [|] [|] [|]]; simpl; intros [u' H] v;
    try discriminate H; eexists; reflexivity.
Qed.

Lemma digits_only_tail c s : digits_only (String c s) -> digits_only s.
Proof.
  intros [u H]. simpl in H.
  destruct (NilEmpty.uint_of_string s) as [v|] eqn:E; [exists v; exact E|].
  unfold uint_of_char in H. discriminate.
Qed.

Lemma digits_only_head c s : digits_only (String c s) -> Ascii.eqb c "." = false.
Proof.
  intros [u H]. simpl in H. destruct (NilEmpty.uint_of_string s) as [v|]; [|unfold uint_of_char in H; discriminate].
  eapply digit_not_dot; eauto.
Qed.

Lemma split_dot_digits a : digits_only a -> split_dot a = (a, None).
Proof.
  induction a as [|c a IH]; intros H; [reflexivity|].
  simpl. rewrite (digits_only_head _ _ H), (IH (digits_only_tail _ _ H)). reflexivity.
Qed.

Lemma split_dot_app a b : digits_only a -> split_dot (a ++ String "." b) = (a, Some b).
Proof.
  induction a as [|c a IH]; intros H; [reflexivity|].
  simpl. rewrite (digits_only_head _ _ H), (IH (digits_only_tail _ _ H)). reflexivity.
Qed.

Lemma digits_only_prefix i m : digits_only m -> digits_only (substring 0 i m).
Proof.
  revert i. induction m as [|c m IH]; intros i H.
  - destruct i; exact H.
  - destruct i as [|i]; [exists Nil; reflexivity|].
    simpl. destruct (IH i (digits_only_tail _ _ H)) as [v Hv].
    destruct H as [u Hu]. simpl in Hu.
    destruct (NilEmpty.uint_of_string m) as [w|] eqn:E; [|unfold uint_of_char in Hu; discriminate].
    unfold digits_only. simpl. rewrite Hv.
    apply (digit_char_ok c w). eexists; exact Hu.
Qed.

Lemma substring_split i m :
  (i <= String.length m)%nat ->
  substring 0 i m ++ substring i (String.length m - i) m = m.
Proof.
  revert i. induction m as [|c m IH]; intros i H.
  - destruct i; reflexivity.
  - destruct i as [|i]; simpl.
    + clear. f_equal. induction m as [|d m IHm]; [reflexivity|]. simpl. f_equal. exact IHm.
    + f_equal. apply IH. simpl in H. lia.
Qed.

Lemma substring_length i f m :
  (i + f <= String.length m)%nat -> String.length (substring i f m) = f.
Proof.
  revert i f. induction m as [|c m IH]; intros i f H; simpl in H.
  - assert (i = 0 /\ f = 0)%nat as [-> ->] by lia. reflexivity.
  - destruct i as [|i]; simpl.
    + destruct f as [|f]; [reflexivity|]. simpl. f_equal. apply (IH 0%nat). simpl. lia.
    + apply IH. lia.
Qed.

Lemma length_append a b : String.length (a ++ b) = (String.length a + String.length b)%nat.
Proof. induction a as [|c a IH]; simpl; [reflexivity | f_equal; exact IH]. Qed.

Lemma length_zeros k : String.length (zeros k) = k.
Proof. induction k; simpl; congruence. Qed.

Lemma zeros_digits k m u :
  NilEmpty.uint_of_string m = Some u ->
  exists u', NilEmpty.uint_of_string (zeros k ++ m) = Some u' /\ N.of_uint u' = N.of_uint u.
Proof.
  intros H. induction k as [|k [u' [H1 H2]]]; [exists u; auto|].
  exists (D0 u'). split; [simpl; rewrite H1; reflexivity|].
  rewrite <- H2. reflexivity.
Qed.

Lemma digits_of_spec n :
  (0 <= n)%Z ->
  NilEmpty.uint_of_string (digits_of n) = Some (N.to_uint (Z.to_N n)) /\
  (1 <= String.length (digits_of n))%nat.
Proof.
  intros Hn. unfold digits_of. split; [apply NilEmpty.usu|].
  destruct (Z.to_N n) as [|p]; [simpl; lia|].
  simpl. pose proof (DecimalPos.Unsigned.to_uint_nonnil p) as NZ.
  destruct (Pos.to_uint p); simpl; try lia. congruence.
Qed.

Lemma nearest_scaled_nonneg f x : (0 <= x)%Q -> (0 <= nearest_scaled f x)%Z.
Proof.
  intros Hx. unfold nearest_scaled.
  change 0%Z with (Qfloor 0). apply Qfloor_resp_le.
  assert (0 < pow10 f)%Z by (apply Z.pow_pos_nonneg; lia).
  assert (0 <= inject_Z (pow10 f))%Q by (rewrite <- (Zle_Qle 0); lia).
  assert (0 <= x * inject_Z (pow10 f))%Q by (apply Qmult_le_0_compat; assumption).
  lra.
Qed.

Lemma parse_decimal_digit c t :
  digits_only (String c "") -> parse_decimal (String c t) = parse_unsigned (String c t).
Proof.
  intros [u H]. simpl in H.
  destruct c as [[|] [|] [|] [|] [|] [|] [|] [|]]; simpl in H; try discriminate H; reflexivity.
Qed.

Lemma digits_only_first c m : digits_only (String c m) -> digits_only (String c "").
Proof.
  intros [u H]. simpl in H.
  destruct (NilEmpty.uint_of_string m) as [w|] eqn:E; [|unfold uint_of_char in H; discriminate].
  apply (digit_char_ok c w). eexists; exact H.
Qed.

Lemma parse_unsigned_plain m u :
  NilEmpty.uint_of_string m = Some u -> (1 <= String.length m)%nat ->
  parse_unsigned m = Some (Z.of_N (N.of_uint u) # 1).
Proof.
  intros Hu Hl. unfold parse_unsigned.
  rewrite (split_dot_digits m) by (exists u; exact Hu).
  assert (E : m ++ "" = m) by (clear; induction m; simpl; congruence).
  rewrite E, Hu. destruct (String.length m); [lia|]. reflexivity.
Qed.

Lemma parse_unsigned_dotted m u i :
  NilEmpty.uint_of_string m = Some u -> (i <= String.length m)%nat -> (1 <= String.length m)%nat ->
  parse_unsigned (substring 0 i m ++ "." ++ substring i (String.length m - i) m)
  = Some (Z.of_N (N.of_uint u) # Z.to_pos (pow10 (String.length m - i))).
Proof.
  intros Hu Hi Hl. unfold parse_unsigned.
  change ("." ++ ?b) with (String "." b).
  rewrite split_dot_app by (apply digits_only_prefix; exists u; exact Hu).
  rewrite substring_split by assumption. rewrite Hu.
  destruct (String.length m) eqn:E; [lia|]. rewrite <- E.
  rewrite substring_length by lia. reflexivity.
Qed.

(** Reading back what [toFixed] printed gives the decimal it printed. *)
Lemma parse_toFixed f x :
  (0 <= x)%Q ->
  parse_decimal (toFixed f x) = Some (nearest_scaled f x # Z.to_pos (pow10 f)).
Proof.
  intros Hx. unfold toFixed.
  assert (Hb : Qle_bool 0 x = true) by (apply Qle_bool_iff; exact Hx).
  rewrite Hb. cbn [append].
  assert (Ha : Qabs x = x).
  { destruct x as [n d]. unfold Qabs. f_equal. apply Z.abs_eq.
    unfold Qle in Hx. simpl in Hx. lia. }
  rewrite Ha. set (n := nearest_scaled f x).
  assert (Hn : (0 <= n)%Z) by (apply nearest_scaled_nonneg; exact Hx).
  destruct (digits_of_spec n Hn) as [Hu Hl].
  assert (Hval : Z.of_N (N.of_uint (N.to_uint (Z.to_N n))) = n).
  { rewrite DecimalN.Unsigned.of_to. apply Z2N.id. exact Hn. }
  destruct (Nat.eqb f 0) eqn:Ef.
  - apply Nat.eqb_eq in Ef. subst f.
    destruct (digits_of n) as [|c t] eqn:Ed; [simpl in Hl; lia|].
    rewrite parse_decimal_digit by (eapply digits_only_first; eexists; exact Hu).
    rewrite (parse_unsigned_plain _ _ Hu Hl), Hval. reflexivity.
  - apply Nat.eqb_neq in Ef.
    set (m := if (String.length (digits_of n) <=? f)%nat
              then zeros (f + 1 - String.length (digits_of n)) ++ digits_of n
              else digits_of n).
    assert (Hm : exists u, NilEmpty.uint_of_string m = Some u /\ N.of_uint u = Z.to_N n /\
                           (f + 1 <= String.length m)%nat).
    { unfold m. destruct (Nat.leb_spec (String.length (digits_of n)) f) as [Hk|Hk].
      - destruct (zeros_digits (f + 1 - String.length (digits_of n)) _ _ Hu) as [u' [H1 H2]].
        exists u'. split; [exact H1|]. split.
        + rewrite H2. apply DecimalN.Unsigned.of_to.
        + rewrite length_append, length_zeros. lia.
      - eexists. split; [exact Hu|]. split; [apply DecimalN.Unsigned.of_to | lia]. }
    destruct Hm as [u [Hmu [Hmv Hml]]].
    set (k := String.length m) in *.
    replace (substring (k - f) f m) with (substring (k - f) (k - (k - f)) m)
      by (f_equal; lia).
    pose proof (parse_unsigned_dotted m u (k - f) Hmu ltac:(fold k; lia) ltac:(fold k; lia)) as P.
    fold k in P. 
    assert (Hd : digits_only (substring 0 (k - f) m))
      by (apply digits_only_prefix; exists u; exact Hmu).
    destruct (substring 0 (k - f) m) as [|c t] eqn:Es.
    { exfalso. pose proof (substring_length 0 (k - f) m ltac:(fold k; lia)) as L.
      rewrite Es in L. simpl in L. lia. }
    cbn [append]. rewrite parse_decimal_digit by (eapply digits_only_first; exact Hd).
    cbn [append] in P. rewrite P, Hmv, Z2N.id by exact Hn.
    replace (k - (k - f))%nat with f by lia. reflexivity.
Qed.

Lemma unary_plus_toFixed f x :
  (0 <= x)%Q -> unary_plus (toFixed f x) = Num (decimal (nearest_scaled f x) f).
Proof.
  intros Hx. unfold unary_plus. rewrite parse_toFixed by exact Hx. reflexivity.
Qed.

End NumberStrings.

(** ** Facts about [toISOString] *)
Section DateFacts.
Local Open Scope string_scope.
Local Open Scope Z_scope.

Lemma value_of_uint u : forall acc,
  value_of acc (DecimalString.NilEmpty.string_of_uint u) = uint_val acc u.
Proof.
  induction u; intros acc; simpl; try reflexivity; rewrite IHu; f_equal; lia.
Qed.

Lemma all_digits_uint u : all_digits (DecimalString.NilEmpty.string_of_uint u) = true.
Proof. induction u; simpl; auto. Qed.

Lemma length_uint u :
  String.length (DecimalString.NilEmpty.string_of_uint u) = Decimal.nb_digits u.
Proof. induction u; simpl; congruence. Qed.

Lemma uint_val_acc u : forall acc,
  uint_val acc u = acc * 10 ^ Z.of_nat (Decimal.nb_digits u) + uint_val 0 u.
Proof.
  induction u; intros acc; cbn [uint_val Decimal.nb_digits];
    [simpl; lia | ..];
    match goal with
    | |- uint_val ?a u = _ + uint_val ?b u => rewrite (IHu a), (IHu b)
    end;
    rewrite Nat2Z.inj_succ, Z.pow_succ_r by lia; lia.
Qed.

Lemma uint_val_nonneg u : 0 <= uint_val 0 u.
Proof.
  induction u; cbn [uint_val]; try lia; rewrite uint_val_acc;
  assert (0 < 10 ^ Z.of_nat (Decimal.nb_digits u)) by (apply Z.pow_pos_nonneg; lia); nia.
Qed.

Lemma of_uint_acc_val u : forall acc, Zpos (Pos.of_uint_acc u acc) = uint_val (Zpos acc) u.
Proof.
  induction u; intros acc; cbn [Pos.of_uint_acc uint_val]; try reflexivity;
    rewrite IHu; f_equal; lia.
Qed.

Lemma of_uint_val u : Z.of_N (N.of_uint u) = uint_val 0 u.
Proof.
  unfold N.of_uint.
  induction u; cbn [Pos.of_uint uint_val]; try reflexivity; try exact IHu;
    cbn [Z.of_N]; rewrite of_uint_acc_val; reflexivity.
Qed.

Lemma nzhead_not_D0 u l : Decimal.nzhead u <> Decimal.D0 l.
Proof. induction u; simpl; try discriminate. exact IHu. Qed.

Lemma unorm_fixed_val u :
  Decimal.unorm u = u ->
  u = Decimal.D0 Decimal.Nil \/
  10 ^ (Z.of_nat (Decimal.nb_digits u) - 1) <= uint_val 0 u.
Proof.
  intros H.
  destruct u;
    [ discriminate H
    | left; unfold Decimal.unorm in H; cbn [Decimal.nzhead] in H;
      destruct (Decimal.nzhead u) eqn:E;
        solve [ symmetry; exact H
              | exfalso; apply (nzhead_not_D0 u u); rewrite E; exact H ]
    | right; cbn [uint_val Decimal.nb_digits]; rewrite uint_val_acc;
      pose proof (uint_val_nonneg u);
      replace (Z.of_nat (S (Decimal.nb_digits u)) - 1)
        with (Z.of_nat (Decimal.nb_digits u)) by lia;
      assert (0 < 10 ^ Z.of_nat (Decimal.nb_digits u))
        by (apply Z.pow_pos_nonneg; lia);
      lia .. ].
Qed.

Lemma digits_of_value n : 0 <= n -> value_of 0 (digits_of n) = n.
Proof.
  intros Hn. unfold digits_of.
  rewrite value_of_uint, <- of_uint_val, DecimalN.Unsigned.of_to. apply Z2N.id. exact Hn.
Qed.

Lemma digits_of_length n w :
  0 <= n < 10 ^ Z.of_nat w -> (1 <= w)%nat -> (String.length (digits_of n) <= w)%nat.
Proof.
  intros Hn Hw. unfold digits_of. rewrite length_uint.
  set (u := N.to_uint (Z.to_N n)).
  assert (Hu : Decimal.unorm u = u).
  { unfold u. rewrite <- (DecimalN.Unsigned.of_to (Z.to_N n)) at 2.
    symmetry. apply DecimalN.Unsigned.to_of. }
  assert (Hv : uint_val 0 u = n).
  { unfold u. rewrite <- of_uint_val, DecimalN.Unsigned.of_to. apply Z2N.id. lia. }
  destruct (unorm_fixed_val u Hu) as [E | B]; [rewrite E; simpl; lia|].
  rewrite Hv in B.
  destruct (Nat.le_gt_cases (Decimal.nb_digits u) w) as [|C]; [assumption|exfalso].
  assert (10 ^ Z.of_nat w <= 10 ^ (Z.of_nat (Decimal.nb_digits u) - 1))
    by (apply Z.pow_le_mono_r; lia).
  lia.
Qed.

Lemma all_digits_zeros k s : all_digits (zeros k ++ s) = all_digits s.
Proof. induction k; simpl; auto. Qed.

Lemma value_of_zeros k s : value_of 0 (zeros k ++ s) = value_of 0 s.
Proof. induction k; simpl; auto. Qed.

Lemma field_ok_padded w lo hi n :
  (1 <= w)%nat -> 0 <= n < 10 ^ Z.of_nat w -> lo <= n <= hi ->
  field_ok w lo hi (zero_padded n w) = true.
Proof.
  intros Hw Hn Hr. unfold field_ok, zero_padded.
  pose proof (digits_of_length n w Hn Hw) as HL.
  rewrite length_append, length_zeros, all_digits_zeros, value_of_zeros.
  unfold digits_of at 3. rewrite all_digits_uint.
  rewrite digits_of_value by lia.
  repeat (apply andb_true_intro; split); try reflexivity.
  - apply Nat.eqb_eq. lia.
  - apply Z.leb_le. lia.
  - apply Z.leb_le. lia.
Qed.

Lemma substring_prefix a b : substring 0 (String.length a) (a ++ b) = a.
Proof.
  induction a as [|c a IH]; simpl.
  - destruct b; reflexivity.
  - f_equal. exact IH.
Qed.

Lemma substring_all b : substring 0 (String.length b) b = b.
Proof. induction b as [|c b IH]; simpl; [reflexivity | f_equal; exact IH]. Qed.

Lemma substring_suffix a b :
  substring (String.length a) (String.length (a ++ b) - String.length a) (a ++ b) = b.
Proof.
  induction a as [|c a IH]; simpl.
  - rewrite Nat.sub_0_r. apply substring_all.
  - exact IH.
Qed.

Lemma field_ok_length w lo hi s : field_ok w lo hi s = true -> String.length s = w.
Proof.
  unfold field_ok. intros H. repeat (apply andb_true_iff in H; destruct H as [H ?]).
  apply Nat.eqb_eq. exact H.
Qed.

Lemma matches_field w lo hi ps a b :
  field_ok w lo hi a = true -> matches ps b = true ->
  matches (Field w lo hi :: ps) (a ++ b) = true.
Proof.
  intros Ha Hb. pose proof (field_ok_length _ _ _ _ Ha) as L. subst w.
  cbn [matches]. rewrite substring_prefix, substring_suffix, Ha, Hb. reflexivity.
Qed.

Lemma matches_sep c ps b :
  matches ps b = true -> matches (Sep c :: ps) (String c b) = true.
Proof. intros H. cbn [matches]. rewrite Ascii.eqb_refl, H. reflexivity. Qed.

Lemma time_fields t :
  0 <= HourFromTime t <= 23 /\ 0 <= MinFromTime t <= 59 /\
  0 <= SecFromTime t <= 59 /\ 0 <= msFromTime t <= 999.
Proof.
  unfold HourFromTime, MinFromTime, SecFromTime, msFromTime.
  Z.div_mod_to_equations. lia.
Qed.

Lemma day_of_era_bounds d : 0 <= day_of_era d <= 146096.
Proof. unfold day_of_era. Z.div_mod_to_equations. lia. Qed.

Lemma year_of_era_bounds doe : 0 <= doe <= 146096 -> 0 <= year_of_era doe <= 399.
Proof. intros H. unfold year_of_era. Z.div_mod_to_equations. lia. Qed.

Lemma day_of_year_bounds doe : 0 <= doe <= 146096 -> 0 <= day_of_year doe <= 365.
Proof. intros H. unfold day_of_year, year_of_era. Z.div_mod_to_equations. lia. Qed.

Lemma month_bounds t : 1 <= MonthFromTime t <= 12.
Proof.
  unfold MonthFromTime, month_from_march.
  pose proof (day_of_year_bounds _ (day_of_era_bounds (Day t))) as H.
  set (doy := day_of_year (day_of_era (Day t))) in *.
  destruct (Z.ltb_spec ((5 * doy + 2) / 153) 10); Z.div_mod_to_equations; lia.
Qed.

Lemma date_bounds t : 1 <= DateFromTime t <= 31.
Proof.
  unfold DateFromTime, month_from_march.
  pose proof (day_of_year_bounds _ (day_of_era_bounds (Day t))) as H.
  set (doy := day_of_year (day_of_era (Day t))) in *.
  Z.div_mod_to_equations. lia.
Qed.

Lemma year_bounds t : valid_time t = true -> -272000 <= YearFromTime t <= 276000.
Proof.
  unfold valid_time. intros H. apply andb_true_iff in H. destruct H as [H1 H2].
  apply Z.leb_le in H1. apply Z.leb_le in H2.
  unfold YearFromTime.
  pose proof (year_of_era_bounds _ (day_of_era_bounds (Day t))) as Hy.
  assert (Hd : -100000000 <= Day t <= 100000000)
    by (unfold Day, msPerDay; Z.div_mod_to_equations; lia).
  assert (He : -680 <= era (Day t) <= 689)
    by (unfold era; Z.div_mod_to_equations; lia).
  destruct (MonthFromTime t <=? 2)%Z; lia.
Qed.

Lemma after_year_ok t :
  matches after_year
    ("-" ++ zero_padded (MonthFromTime t) 2 ++ "-" ++
     zero_padded (DateFromTime t) 2 ++ "T" ++ zero_padded (HourFromTime t) 2 ++ ":" ++
     zero_padded (MinFromTime t) 2 ++ ":" ++ zero_padded (SecFromTime t) 2 ++ "." ++
     zero_padded (msFromTime t) 3 ++ "Z") = true.
Proof.
  destruct (time_fields t) as [Hh [Hm [Hs Hms]]].
  pose proof (month_bounds t) as HM. pose proof (date_bounds t) as HD.
  unfold after_year.
  repeat first
    [ apply matches_sep
    | apply matches_field; [apply field_ok_padded; [lia | simpl; lia | lia] | ]
    | reflexivity ].
Qed.

(** [toISOString] of a valid time value is an ISO-8601 date-time. *)
Lemma toISOString_iso t : valid_time t = true -> is_iso8601 (toISOString t) = true.
Proof.
  intros Hv. pose proof (year_bounds t Hv) as Hy.
  unfold is_iso8601, toISOString, year_string.
  pose proof (after_year_ok t) as HA.
  destruct (Z.leb_spec 0 (YearFromTime t)) as [H0|H0];
    [destruct (Z.leb_spec (YearFromTime t) 9999) as [H1|H1]|]; cbn [andb].
  - rewrite matches_field; [reflexivity | apply field_ok_padded; [lia | simpl; lia | lia] | exact HA].
  - destruct (Z.ltb_spec (YearFromTime t) 0) as [C|_]; [lia|].
    apply orb_true_intro. left. apply orb_true_intro. right.
    apply matches_sep. apply matches_field; [|exact HA].
    apply field_ok_padded; [lia | simpl; lia | lia].
  - destruct (Z.ltb_spec (YearFromTime t) 0) as [_|C]; [|lia].
    apply orb_true_intro. right.
    apply matches_sep. apply matches_field; [|exact HA].
    apply field_ok_padded; [lia | simpl; lia | lia].
Qed.

End DateFacts.

(** ** The speed statistics *)
Section SpeedStats.
Local Open Scope Q_scope.

Lemma nearest_scaled_mono f x y :
  x <= y -> (nearest_scaled f x <= nearest_scaled f y)%Z.
Proof.
  intros H. unfold nearest_scaled. apply Qfloor_resp_le.
  assert (0 < pow10 f)%Z by (apply Z.pow_pos_nonneg; lia).
  assert (0 <= inject_Z (pow10 f)) by (rewrite <- (Zle_Qle 0); lia).
  assert (x * inject_Z (pow10 f) <= y * inject_Z (pow10 f))
    by (apply Qmult_le_compat_r; assumption).
  lra.
Qed.

Lemma decimal_mono f n m : (0 <= n <= m)%Z -> decimal n f <= decimal m f.
Proof.
  intros H. unfold decimal. apply fl_mono.
  - unfold Qle. simpl. lia.
  - unfold Qle. simpl. apply Z.mul_le_mono_nonneg_r; lia.
Qed.

(** [Math.random() * d + lo] stays between [lo] and the rounded [d + lo]. *)
Lemma scaled_bounds r lo d :
  0 <= r -> r < 1 -> 0 <= lo -> 0 <= d -> fl d == d -> fl lo == lo ->
  lo <= fadd (fmul r d) lo /\ fadd (fmul r d) lo <= fl (d + lo).
Proof.
  intros Hr0 Hr1 Hlo Hd Fd Flo.
  assert (H0 : 0 <= fmul r d) by (apply fl_nonneg, Qmult_le_0_compat; assumption).
  assert (H1 : fmul r d <= d).
  { apply fl_compat_ge; [apply Qmult_le_0_compat; assumption | exact Fd |].
    rewrite <- (Qmult_1_l d) at 2. apply Qmult_le_compat_r; lra. }
  unfold fadd. split.
  - apply fl_compat_le; [assumption | assumption | lra].
  - apply fl_mono; lra.
Qed.

(** One line of [generateSpeedStats]: the draw, scaled, printed with
    [digits] decimals and read back. *)
Lemma scaled_draw_range r lo hi digits nlo nhi qlo qhi :
  0 <= r -> r < 1 ->
  Qle_bool 0 lo = true -> Qle_bool 0 (fsub hi lo) = true ->
  Qeq_bool (fl (fsub hi lo)) (fsub hi lo) = true -> Qeq_bool (fl lo) lo = true ->
  (0 <=? nlo)%Z = true ->
  nearest_scaled digits lo = nlo ->
  nearest_scaled digits (fl (fsub hi lo + lo)) = nhi ->
  decimal nlo digits = qlo -> decimal nhi digits = qhi ->
  in_decimal_range (scaled_draw r lo hi digits) digits nlo nhi /\
  within (scaled_draw r lo hi digits) qlo qhi.
Proof.
  intros Hr0 Hr1 Hlo Hd Fd Flo Hn0 Hnlo Hnhi Hqlo Hqhi.
  apply Qle_bool_iff in Hlo. apply Qle_bool_iff in Hd.
  apply Qeq_bool_iff in Fd. apply Qeq_bool_iff in Flo. apply Z.leb_le in Hn0.
  destruct (scaled_bounds r lo (fsub hi lo) Hr0 Hr1 Hlo Hd Fd Flo) as [B1 B2].
  unfold scaled_draw.
  rewrite unary_plus_toFixed by lra.
  set (x := fadd (fmul r (fsub hi lo)) lo) in *.
  assert (Hn : (nlo <= nearest_scaled digits x <= nhi)%Z).
  { rewrite <- Hnlo, <- Hnhi. split; apply nearest_scaled_mono; assumption. }
  split.
  - exists (nearest_scaled digits x). split; [reflexivity | exact Hn].
  - rewrite <- Hqlo, <- Hqhi. cbn [within]. split; apply decimal_mono; lia.
Qed.

Lemma nearest_scaled_near f x :
  Qabs (inject_Z (nearest_scaled f x) / inject_Z (pow10 f) - x)
  <= 1 / (2 * inject_Z (pow10 f)).
Proof.
  unfold nearest_scaled.
  assert (Hp : (0 < pow10 f)%Z) by (apply Z.pow_pos_nonneg; lia).
  assert (Hq : 0 < inject_Z (pow10 f)) by (rewrite <- (Zlt_Qlt 0); exact Hp).
  set (p := inject_Z (pow10 f)) in *.
  set (y := x * p + (1 # 2)).
  pose proof (Qfloor_le y) as Hlo. pose proof (Qlt_floor y) as Hhi.
  rewrite inject_Z_plus in Hhi. change (inject_Z 1) with 1 in Hhi.
  set (k := inject_Z (Qfloor y)) in *.
  assert (E : k / p - x == (k - x * p) / p) by (field; lra).
  rewrite E. unfold Qdiv at 1. rewrite Qabs_Qmult.
  rewrite (Qabs_pos (/ p)) by (apply Qlt_le_weak, Qinv_lt_0_compat; exact Hq).
  assert (B : Qabs (k - x * p) <= 1 # 2).
  { apply Qabs_Qle_condition. unfold y in *. split; lra. }
  assert (E2 : 1 / (2 * p) == (1 # 2) * / p) by (field; lra).
  rewrite E2. apply Qmult_le_compat_r; [exact B|].
  apply Qlt_le_weak, Qinv_lt_0_compat; exact Hq.
Qed.

(** One line of [generateSpeedStats] as the JSON number it becomes. *)
Lemma scaled_draw_metric r lo hi digits nlo nhi :
  0 <= r -> r < 1 ->
  Qle_bool 0 lo = true -> Qle_bool 0 (fsub hi lo) = true ->
  Qeq_bool (fl (fsub hi lo)) (fsub hi lo) = true -> Qeq_bool (fl lo) lo = true ->
  nearest_scaled digits lo = nlo ->
  nearest_scaled digits (fl (fsub hi lo + lo)) = nhi ->
  metric_from_draw (Some (json_of_number (scaled_draw r lo hi digits))) r lo hi digits nlo nhi.
Proof.
  intros Hr0 Hr1 Hlo Hd Fd Flo Hnlo Hnhi.
  apply Qle_bool_iff in Hlo. apply Qle_bool_iff in Hd.
  apply Qeq_bool_iff in Fd. apply Qeq_bool_iff in Flo.
  destruct (scaled_bounds r lo (fsub hi lo) Hr0 Hr1 Hlo Hd Fd Flo) as [B1 B2].
  unfold scaled_draw, metric_from_draw.
  rewrite unary_plus_toFixed by lra.
  set (x := fadd (fmul r (fsub hi lo)) lo) in *.
  exists (nearest_scaled digits x). split; [reflexivity|]. split.
  - rewrite <- Hnlo, <- Hnhi. split; apply nearest_scaled_mono; assumption.
  - apply nearest_scaled_near.
Qed.

Lemma generateSpeedStats_eq w :
  run generateSpeedStats w =
  {| ping := scaled_draw (random w (drawn w)) 8 40 1;
     download := scaled_draw (random w (S (drawn w))) 30 120 1;
     upload := scaled_draw (random w (S (S (drawn w)))) 10 60 1;
     accuracy := scaled_draw (random w (S (S (S (drawn w))))) 97 (lit (999 # 10)) 2 |}.
Proof.
  unfold run, generateSpeedStats, bind, Math_random, ret, scaled_draw.
  cbn [fst snd random drawn os process clock]. reflexivity.
Qed.

Lemma sample_unit_draws : unit_draws sample_world.
Proof.
  intros i. unfold sample_world, sample_random. cbn [random].
  pose proof (Nat.mod_upper_bound i 8 ltac:(discriminate)) as H.
  split; unfold Qle, Qlt; cbn [Qnum Qden]; lia.
Qed.

Lemma ping_range r :
  0 <= r -> r < 1 ->
  in_decimal_range (scaled_draw r 8 40 1) 1 80 400 /\ within (scaled_draw r 8 40 1) 8 40.
Proof.
  intros H0 H1.
  apply scaled_draw_range; [exact H0 | exact H1 | vm_compute; reflexivity ..].
Qed.

Lemma download_range r :
  0 <= r -> r < 1 ->
  in_decimal_range (scaled_draw r 30 120 1) 1 300 1200 /\
  within (scaled_draw r 30 120 1) 30 120.
Proof.
  intros H0 H1.
  apply scaled_draw_range; [exact H0 | exact H1 | vm_compute; reflexivity ..].
Qed.

Lemma upload_range r :
  0 <= r -> r < 1 ->
  in_decimal_range (scaled_draw r 10 60 1) 1 100 600 /\ within (scaled_draw r 10 60 1) 10 60.
Proof.
  intros H0 H1.
  apply scaled_draw_range; [exact H0 | exact H1 | vm_compute; reflexivity ..].
Qed.

Lemma accuracy_range r :
  0 <= r -> r < 1 ->
  in_decimal_range (scaled_draw r 97 (lit (999 # 10)) 2) 2 9700 9990 /\
  within (scaled_draw r 97 (lit (999 # 10)) 2) 97 (lit (999 # 10)).
Proof.
  intros H0 H1.
  apply scaled_draw_range; [exact H0 | exact H1 | vm_compute; reflexivity ..].
Qed.

(** C4. For every result of [generateSpeedStats] (the draws being in
    [0, 1)): ping is a number with at most one decimal place in [8, 40],
    download one in [30, 120], upload one in [10, 60], and accuracy a
    number with at most two decimal places in [97, 99.9]. *)
Theorem C4_speed_stats_ranges (w : World) :
  unit_draws w ->
  let s := run generateSpeedStats w in
  (in_decimal_range (ping s) 1 80 400 /\ within (ping s) 8 40) /\
  (in_decimal_range (download s) 1 300 1200 /\ within (download s) 30 120) /\
  (in_decimal_range (upload s) 1 100 600 /\ within (upload s) 10 60) /\
  (in_decimal_range (accuracy s) 2 9700 9990 /\
   within (accuracy s) 97 (lit (999 # 10))).
Proof.
  intros Hw s. unfold s. rewrite generateSpeedStats_eq.
  cbn [ping download upload accuracy].
  split; [|split; [|split]].
  - apply ping_range; apply Hw.
  - apply download_range; apply Hw.
  - apply upload_range; apply Hw.
  - apply accuracy_range; apply Hw.
Qed.

Lemma C4_witness :
  let s := run generateSpeedStats sample_world in
  (in_decimal_range (ping s) 1 80 400 /\ within (ping s) 8 40) /\
  (in_decimal_range (download s) 1 300 1200 /\ within (download s) 30 120) /\
  (in_decimal_range (upload s) 1 100 600 /\ within (upload s) 10 60) /\
  (in_decimal_range (accuracy s) 2 9700 9990 /\
   within (accuracy s) 97 (lit (999 # 10))).
Proof. exact (C4_speed_stats_ranges sample_world sample_unit_draws). Defined.

End SpeedStats.

(** ** The system-load snapshot *)
Section SystemLoadFacts.
Local Open Scope Q_scope.

Lemma getSystemLoad_eq w :
  getSystemLoad w =
  ({| cpuCount := List.length (cpus (os w));
      avgLoad := fst (fst (loadavg (os w)));
      freeMem :=
        toFixed 2
          (fmul (fdiv (fl (inject_Z (Z.of_N (freemem (os w)))))
                      (fl (inject_Z (Z.of_N (totalmem (os w)))))) 100) |}, w).
Proof. reflexivity. Qed.

(** The free-memory percentage lies between 0 and 100, so [toFixed]
    prints it in plain decimal notation. *)
Lemma free_percent_range (o : OS) :
  let fm := fl (inject_Z (Z.of_N (freemem o))) in
  let tm := fl (inject_Z (Z.of_N (totalmem o))) in
  0 <= fmul (fdiv fm tm) 100 /\ fmul (fdiv fm tm) 100 <= 100.
Proof.
  intros fm tm.
  assert (Hf : 0 <= inject_Z (Z.of_N (freemem o))) by (rewrite <- (Zle_Qle 0); lia).
  assert (Hft : inject_Z (Z.of_N (freemem o)) <= inject_Z (Z.of_N (totalmem o))).
  { rewrite <- Zle_Qle. unfold totalmem. lia. }
  assert (Ht1 : 1 <= inject_Z (Z.of_N (totalmem o))).
  { rewrite <- (Zle_Qle 1). unfold totalmem. lia. }
  assert (F0 : 0 <= fm) by (apply fl_nonneg; exact Hf).
  assert (Fle : fm <= tm) by (apply fl_mono; assumption).
  assert (T1 : 1 <= tm).
  { unfold tm. apply fl_compat_le; [lra | vm_compute; reflexivity | exact Ht1]. }
  assert (D0 : 0 <= fm / tm).
  { apply Qle_shift_div_l; lra. }
  assert (D1 : fm / tm <= 1).
  { apply Qle_shift_div_r; lra. }
  assert (R0 : 0 <= fdiv fm tm) by (apply fl_nonneg; exact D0).
  assert (R1 : fdiv fm tm <= 1).
  { apply fl_compat_ge; [exact D0 | vm_compute; reflexivity | exact D1]. }
  unfold fmul. split.
  - apply fl_nonneg. lra.
  - apply fl_compat_ge; [lra | vm_compute; reflexivity | lra].
Qed.

(** X4. [freeMem] reads back as a number of hundredths between 0 and
    100: the free memory is reported as a percentage with two decimals. *)
Lemma freeMem_is_percentage (w : World) :
  exists n : Z,
    parse_decimal (freeMem (run getSystemLoad w)) = Some (n # 100) /\ (0 <= n <= 10000)%Z.
Proof.
  destruct (free_percent_range (os w)) as [H0 H1].
  exists (nearest_scaled 2
            (fmul (fdiv (fl (inject_Z (Z.of_N (freemem (os w)))))
                        (fl (inject_Z (Z.of_N (totalmem (os w)))))) 100)).
  split.
  - unfold run. rewrite getSystemLoad_eq. cbn [fst freeMem].
    rewrite parse_toFixed by exact H0. reflexivity.
  - split.
    + apply nearest_scaled_nonneg. exact H0.
    + change 10000%Z with (nearest_scaled 2 100).
      apply nearest_scaled_mono. exact H1.
Qed.

(** The text of [freeMem]: two decimals, nearest to the percentage. *)
Lemma freeMem_percent (w : World) :
  percent_text (freeMem (run getSystemLoad w)) (free_percent (os w)).
Proof.
  destruct (free_percent_range (os w)) as [H0 H1].
  unfold percent_text. exists (nearest_scaled 2 (free_percent (os w))).
  split; [|split].
  - unfold run. rewrite getSystemLoad_eq. cbn [fst freeMem].
    fold (free_percent (os w)).
    rewrite parse_toFixed by exact H0. reflexivity.
  - split.
    + apply nearest_scaled_nonneg. exact H0.
    + change 10000%Z with (nearest_scaled 2 100).
      apply nearest_scaled_mono. exact H1.
  - exact (nearest_scaled_near 2 (free_percent (os w))).
Qed.

Lemma append_empty_r (s : string) : (s ++ "")%string = s.
Proof. induction s as [|c s IH]; [reflexivity|]. cbn. rewrite IH. reflexivity. Qed.

End SystemLoadFacts.

(** ** The routes *)
Section Routes.
Local Open Scope string_scope.
Local Open Scope nat_scope.

(** What each handler answers, spelled out. *)
Lemma generateSpeedStats_world w :
  snd (generateSpeedStats w) =
  {| os := os w; process := process w; clock := clock w;
     random := random w; drawn := S (S (S (S (drawn w)))); runtime := runtime w |}.
Proof.
  unfold generateSpeedStats, bind, Math_random, ret.
  cbn [fst snd random drawn os process clock runtime]. reflexivity.
Qed.

Lemma generateSpeedStats_pair w :
  generateSpeedStats w = (run generateSpeedStats w, snd (generateSpeedStats w)).
Proof. unfold run. destruct (generateSpeedStats w); reflexivity. Qed.

Lemma root_handler_eq req w :
  root_handler req w =
  ({| statusCode := send_status w req (Text banner); body := Text banner |}, w).
Proof. reflexivity. Qed.

Lemma speedtest_handler_eq req w :
  run (speedtest_handler req) w =
  {| statusCode := send_status w req (Json (to_json (speedtest_value w)));
     body := Json (to_json (speedtest_value w)) |}.
Proof.
  unfold run, speedtest_handler, bind.
  rewrite getSystemLoad_eq. rewrite (generateSpeedStats_pair w).
  rewrite generateSpeedStats_world.
  unfold new_Date, os_hostname, process_env, res_json, send, read, send_status.
  cbn [fst snd os process clock runtime]. reflexivity.
Qed.

Lemma speedtest_handler_world req w :
  snd (speedtest_handler req w) = snd (generateSpeedStats w).
Proof.
  unfold speedtest_handler, bind.
  rewrite getSystemLoad_eq. rewrite (generateSpeedStats_pair w).
  unfold new_Date, os_hostname, process_env, res_json, send, read.
  cbn [fst snd]. reflexivity.
Qed.

Lemma health_handler_eq req w :
  health_handler req w =
  ({| statusCode := send_status w req (Json (to_json (health_value w)));
      body := Json (to_json (health_value w)) |}, w).
Proof. reflexivity. Qed.

Lemma send_status_cases w req b :
  send_status w req b = 200 \/ send_status w req b = 304.
Proof. unfold send_status. destruct (req_fresh (runtime w) req b); [right | left]; reflexivity. Qed.

(** A request without validators is never fresh. *)
Lemma unconditional_status w req b : unconditional req -> send_status w req b = 200.
Proof.
  intros [H1 H2]. unfold send_status, req_fresh. rewrite H1, H2.
  rewrite andb_false_r. reflexivity.
Qed.

Lemma routes_found :
  find_route app GET "/" = Some root_handler /\
  find_route app GET "/api/speedtest" = Some speedtest_handler /\
  find_route app GET "/api/health" = Some health_handler.
Proof.
  unfold find_route, app.
  replace (method_matches GET GET) with true by reflexivity.
  replace (path_matches "/" "/") with true by (vm_compute; reflexivity).
  replace (path_matches "/" "/api/speedtest") with false by (vm_compute; reflexivity).
  replace (path_matches "/" "/api/health") with false by (vm_compute; reflexivity).
  replace (path_matches "/api/speedtest" "/api/speedtest") with true by (vm_compute; reflexivity).
  replace (path_matches "/api/speedtest" "/api/health") with false by (vm_compute; reflexivity).
  replace (path_matches "/api/health" "/api/health") with true by (vm_compute; reflexivity).
  cbn [andb]. repeat split.
Qed.

Lemma path_matches_normal pattern path :
  path_matches pattern path = String.eqb (normal_path path) (normal_path pattern).
Proof. reflexivity. Qed.

Lemma method_matches_GET m : method_matches GET m = get_or_head m.
Proof. destruct m; reflexivity. Qed.

(** Which handler the routes pick. *)
Lemma find_route_app m p :
  find_route app m p =
  if get_or_head m then
    if String.eqb (normal_path p) "" then Some root_handler
    else if String.eqb (normal_path p) "/api/speedtest" then Some speedtest_handler
    else if String.eqb (normal_path p) "/api/health" then Some health_handler
    else None
  else None.
Proof.
  unfold find_route, app. rewrite !method_matches_GET, !path_matches_normal.
  replace (normal_path "/") with "" by reflexivity.
  replace (normal_path "/api/speedtest") with "/api/speedtest" by reflexivity.
  replace (normal_path "/api/health") with "/api/health" by reflexivity.
  destruct (get_or_head m); cbn [andb]; [|reflexivity].
  destruct (String.eqb (normal_path p) ""); [reflexivity|].
  destruct (String.eqb (normal_path p) "/api/speedtest"); [reflexivity|].
  destruct (String.eqb (normal_path p) "/api/health"); reflexivity.
Qed.

Lemma dispatch_reaches req w :
  reaches_routes w req -> dispatch req w = route req w.
Proof. unfold reaches_routes, dispatch. intros ->. reflexivity. Qed.

Lemma routed_path_eq rt p : p <> "//" -> routed_path rt p = p.
Proof.
  intros H. unfold routed_path. apply String.eqb_neq in H. rewrite H. reflexivity.
Qed.

(** Whatever the runtime makes of two slashes, it is none of the paths
    below the root. *)
Lemma routed_path_normal rt p :
  normal_path (routed_path rt p) = normal_path p \/
  (p = "//" /\ normal_path (routed_path rt p) = "" /\ normal_path p = "/").
Proof.
  unfold routed_path. destruct (String.eqb_spec p "//") as [->|NE]; [|left; reflexivity].
  destruct (double_slash_is_root rt); [right | left]; repeat split.
Qed.

Lemma routed_path_below_root rt p path :
  path <> "" -> path <> "/" ->
  String.eqb (normal_path (routed_path rt p)) path = String.eqb (normal_path p) path.
Proof.
  intros H1 H2. destruct (routed_path_normal rt p) as [-> | [_ [-> ->]]]; [reflexivity|].
  destruct (String.eqb_spec "" path); destruct (String.eqb_spec "/" path); congruence.
Qed.

Lemma route_speedtest req w :
  asks_for "/api/speedtest" req = true -> route req w = speedtest_handler req w.
Proof.
  unfold asks_for, route. rewrite find_route_app. intros H.
  apply andb_true_iff in H. destruct H as [Hm Hp]. rewrite Hm.
  rewrite <- (routed_path_below_root (runtime w)) in Hp by discriminate.
  set (p := routed_path (runtime w) (req_path req)) in *.
  destruct (String.eqb (normal_path p) "") eqn:E0.
  - apply String.eqb_eq in E0. rewrite E0 in Hp. discriminate Hp.
  - rewrite Hp. reflexivity.
Qed.

Lemma route_health req w :
  asks_for "/api/health" req = true -> route req w = health_handler req w.
Proof.
  unfold asks_for, route. rewrite find_route_app. intros H.
  apply andb_true_iff in H. destruct H as [Hm Hp]. rewrite Hm.
  rewrite <- (routed_path_below_root (runtime w)) in Hp by discriminate.
  set (p := routed_path (runtime w) (req_path req)) in *.
  destruct (String.eqb (normal_path p) "") eqn:E0.
  - apply String.eqb_eq in E0. rewrite E0 in Hp. discriminate Hp.
  - destruct (String.eqb (normal_path p) "/api/speedtest") eqn:E1.
    + apply String.eqb_eq in E1. rewrite E1 in Hp. discriminate Hp.
    + rewrite Hp. reflexivity.
Qed.

(** The members of the two JSON values. *)
Lemma speedtest_members w :
  let j := to_json (speedtest_value w) in
  at_path ["data"; "ping"] j = Some (json_of_number (ping (run generateSpeedStats w))) /\
  at_path ["data"; "download"] j = Some (json_of_number (download (run generateSpeedStats w))) /\
  at_path ["data"; "upload"] j = Some (json_of_number (upload (run generateSpeedStats w))) /\
  at_path ["data"; "accuracy"] j = Some (json_of_number (accuracy (run generateSpeedStats w))) /\
  at_path ["server"; "cpuCount"] j
    = Some (JNumber (inject_Z (Z.of_nat (List.length (cpus (os w)))))) /\
  at_path ["server"; "load"] j = Some (JNumber (fst (fst (loadavg (os w))))) /\
  at_path ["server"; "memoryFree"] j = Some (JString (freeMem (run getSystemLoad w) ++ "%")).
Proof. repeat split. Qed.

Lemma health_members w :
  let j := to_json (health_value w) in
  keys j = ["status"; "uptime"; "load"] /\
  member "status" j = Some (JString "OK") /\
  member "uptime" j = Some (JNumber (uptime (process w))) /\
  member "load" j = Some (to_json (SystemLoad_val (run getSystemLoad w))) /\
  at_path ["load"; "cpuCount"] j
    = Some (JNumber (inject_Z (Z.of_nat (List.length (cpus (os w)))))) /\
  at_path ["load"; "avgLoad"] j = Some (JNumber (fst (fst (loadavg (os w))))) /\
  at_path ["load"; "freeMem"] j = Some (JString (freeMem (run getSystemLoad w))).
Proof. repeat split. Qed.

(** The metrics, each from its draw. *)
Lemma metrics_from_draws w :
  unit_draws w -> holds_metrics w (to_json (speedtest_value w)).
Proof.
  intros Hw. unfold holds_metrics.
  destruct (speedtest_members w) as [E1 [E2 [E3 [E4 _]]]].
  cbv zeta in E1, E2, E3, E4. rewrite E1, E2, E3, E4.
  rewrite generateSpeedStats_eq. cbn [ping download upload accuracy].
  rewrite !Nat.add_succ_r, !Nat.add_0_r.
  split; [|split; [|split]].
  - apply scaled_draw_metric; [apply Hw | apply Hw | vm_compute; reflexivity ..].
  - apply scaled_draw_metric; [apply Hw | apply Hw | vm_compute; reflexivity ..].
  - apply scaled_draw_metric; [apply Hw | apply Hw | vm_compute; reflexivity ..].
  - apply scaled_draw_metric; [apply Hw | apply Hw | vm_compute; reflexivity ..].
Qed.

(** C1. GET /api/speedtest is answered (200, in JSON, unless the
    client's cached copy is still good) with four numbers labelled ping,
    download, upload and accuracy, each the draw of [Math.random()]
    scaled into its range and rounded to one or two decimals, and with
    a snapshot of the system load (CPU count, load average, free memory
    in percent); GET /api/health is the health check, answered with
    status "OK" and the same snapshot. *)
Theorem C1_speedtest_metrics_load_and_health (req hreq : Request) (w : World) :
  unit_draws w ->
  reaches_routes w req -> asks_for "/api/speedtest" req = true ->
  reaches_routes w hreq -> asks_for "/api/health" hreq = true ->
  let resp := run (dispatch req) w in
  let j := json_of resp in
  let health := run (dispatch hreq) w in
  let hj := json_of health in
  (statusCode resp = send_status w req (body resp) /\
   (unconditional req ->
    statusCode resp = 200 /\ (req_method req = GET -> written req resp = Some (Json j)))) /\
  holds_metrics w j /\
  holds_load (os w) (at_path ["server"; "cpuCount"] j) (at_path ["server"; "load"] j)
    (at_path ["server"; "memoryFree"] j) "%" /\
  (statusCode health = send_status w hreq (body health) /\
   (unconditional hreq -> statusCode health = 200)) /\
  member "status" hj = Some (JString "OK") /\
  holds_load (os w) (at_path ["load"; "cpuCount"] hj) (at_path ["load"; "avgLoad"] hj)
    (at_path ["load"; "freeMem"] hj) "".
Proof.
  intros Hw Hr Ha Hr' Ha' resp j health hj.
  unfold hj, health, j, resp, run.
  rewrite (dispatch_reaches _ _ Hr), (dispatch_reaches _ _ Hr').
  rewrite (route_speedtest _ _ Ha), (route_health _ _ Ha').
  fold (run (speedtest_handler req) w). rewrite speedtest_handler_eq, health_handler_eq.
  cbn [fst statusCode body json_of].
  destruct (speedtest_members w) as [_ [_ [_ [_ [S1 [S2 S3]]]]]].
  destruct (health_members w) as [_ [H0 [_ [_ [H1 [H2 H3]]]]]].
  cbv zeta in S1, S2, S3, H0, H1, H2, H3.
  split; [split; [reflexivity|]|].
  { intros Hu. rewrite (unconditional_status _ _ _ Hu). split; [reflexivity|].
    intros Hm. unfold written. rewrite Hm. reflexivity. }
  split; [apply metrics_from_draws; exact Hw|].
  split.
  { unfold holds_load. rewrite S1, S2, S3. split; [reflexivity|]. split; [reflexivity|].
    exists (freeMem (run getSystemLoad w)). split; [reflexivity | apply freeMem_percent]. }
  split; [split; [reflexivity | intros Hu; apply unconditional_status; exact Hu]|].
  split; [exact H0|].
  unfold holds_load. rewrite H1, H2, H3. split; [reflexivity|]. split; [reflexivity|].
  exists (freeMem (run getSystemLoad w)). split.
  - rewrite append_empty_r. reflexivity.
  - apply freeMem_percent.
Qed.

(** C10. Each of the three handlers answers every request, and never
    with an error: whatever the request holds, the handler hands the
    same value to [res.send] or [res.json] and leaves the same world,
    and the status is 200, or 304 when the request is conditional and
    the client's copy still good; it is 200 for every request without
    validators. *)
Theorem C10_handlers_total (req req' : Request) (w : World) :
  Forall (fun h : Handler =>
            body (run (h req) w) = body (run (h req') w) /\
            snd (h req w) = snd (h req' w) /\
            statusCode (run (h req) w) = send_status w req (body (run (h req) w)) /\
            statusCode (run (h req) w) < 400 /\
            (unconditional req -> statusCode (run (h req) w) = 200))
         (map snd app).
Proof.
  assert (L : forall b, send_status w req b < 400).
  { intros b. destruct (send_status_cases w req b) as [-> | ->]; lia. }
  assert (T : forall (r : Response) (w1 w2 : World) (b : Body),
             r = {| statusCode := send_status w req b; body := b |} -> w1 = w2 ->
             forall r' : Response, body r' = b ->
             body r = body r' /\ w1 = w2 /\
             statusCode r = send_status w req (body r) /\
             statusCode r < 400 /\ (unconditional req -> statusCode r = 200)).
  { intros r w1 w2 b -> -> r' Hr'. cbn [statusCode body].
    split; [symmetry; exact Hr'|]. split; [reflexivity|]. split; [reflexivity|].
    split; [apply L|]. intros Hu. apply unconditional_status, Hu. }
  unfold app. cbn [map snd].
  constructor; [|constructor; [|constructor; [|constructor]]].
  - apply (T _ _ _ (Text banner)).
    + unfold run. rewrite root_handler_eq. reflexivity.
    + rewrite !root_handler_eq. reflexivity.
    + unfold run. rewrite root_handler_eq. reflexivity.
  - apply (T _ _ _ (Json (to_json (speedtest_value w)))).
    + apply speedtest_handler_eq.
    + rewrite !speedtest_handler_world. reflexivity.
    + rewrite speedtest_handler_eq. reflexivity.
  - apply (T _ _ _ (Json (to_json (health_value w)))).
    + unfold run. rewrite health_handler_eq. reflexivity.
    + rewrite !health_handler_eq. reflexivity.
    + unfold run. rewrite health_handler_eq. reflexivity.
Qed.

(** The answers in the sample world (two CPUs, 3 GiB free of 8, draws
    0, 1/8, 2/8, 3/8). *)
Example sample_speedtest_answer :
  run (speedtest_handler (get "/api/speedtest")) sample_world =
  {| statusCode := 200;
     body := Json (JObject
       [("status", JString "success");
        ("timestamp", JString "2023-11-14T22:13:20.000Z");
        ("server", JObject
           [("name", JString "velocity-1");
            ("region", JString "primary");
            ("load", JNumber (1 # 2));
            ("cpuCount", JNumber 2);
            ("memoryFree", JString "37.50%")]);
        ("data", JObject
           [("ping", JNumber 8);
            ("download", JNumber (decimal 413 1));
            ("upload", JNumber (decimal 225 1));
            ("accuracy", JNumber (decimal 9809 2))])]) |}.
Proof. vm_compute. reflexivity. Qed.

Example sample_health_answer :
  run (health_handler (get "/api/health")) sample_world =
  {| statusCode := 200;
     body := Json (JObject
       [("status", JString "OK");
        ("uptime", JNumber (25 # 2));
        ("load", JObject
           [("cpuCount", JNumber 2);
            ("avgLoad", JNumber (1 # 2));
            ("freeMem", JString "37.50")])]) |}.
Proof. vm_compute. reflexivity. Qed.

(** Express matches paths loosely; the three routes are the only ones. *)
Example routing_examples :
  statusCode (run (dispatch (get "/API/Health/")) sample_world) = 200 /\
  statusCode (run (dispatch (get "/health")) sample_world) = 404 /\
  statusCode (run (dispatch (post "/api/speedtest")) sample_world) = 404.
Proof. vm_compute. repeat split. Qed.

(** A conditional request whose validators match is answered 304 and
    nothing is written, after the handler has run (four draws are
    gone); a request whose body [express.json()] refuses never gets to
    the handler; [cors()] answers OPTIONS. *)
Example middleware_examples :
  let cached := with_header "if-none-match" "*" (get "/api/speedtest") in
  let broken := with_json_body "ping" (get "/api/speedtest") in
  (statusCode (run (dispatch cached) sample_world) = 304 /\
   written cached (run (dispatch cached) sample_world) = None /\
   drawn (snd (dispatch cached sample_world)) = 4) /\
  (statusCode (run (dispatch broken) sample_world) = 400 /\
   drawn (snd (dispatch broken sample_world)) = 0) /\
  statusCode (run (dispatch {| req_method := OPTIONS; req_path := "/api/speedtest";
                               req_query := []; req_headers := [];
                               req_body := "" |}) sample_world) = 204.
Proof. vm_compute. repeat split. Qed.

(** *** The [status] member *)

(** C2, as the code has it. GET /api/speedtest answers JSON whose
    [status] is "success", one of the three listed values; GET /api/health
    answers JSON whose [status] is "OK"; GET / answers plain text, which
    has no [status] member. *)
Theorem C2_status_per_route (req : Request) (w : World) :
  (api_status (run (speedtest_handler req) w) = Some "success" /\
   status_is_listed (run (speedtest_handler req) w) = true) /\
  (api_status (run (health_handler req) w) = Some "OK" /\
   status_is_listed (run (health_handler req) w) = false) /\
  (body (run (root_handler req) w)
     = Text "⚡ Velocity Backend Active - Ready for Speed Test" /\
   api_status (run (root_handler req) w) = None).
Proof.
  rewrite speedtest_handler_eq. unfold run. rewrite health_handler_eq, root_handler_eq.
  repeat split.
Qed.

(** C2 fails as stated: the health check's [status] is "OK", none of
    success, partial, failed, and the answer of GET / has no [status]. *)
Lemma C2_counterexample :
  status_is_listed (run (health_handler (get "/api/health")) sample_world) = false /\
  api_status (run (health_handler (get "/api/health")) sample_world) = Some "OK" /\
  api_status (run (root_handler (get "/")) sample_world) = None.
Proof. repeat split. Qed.

(** *** The health check *)

Lemma no_health_route : find_route app GET "/health" = None.
Proof.
  unfold find_route, app.
  replace (path_matches "/" "/health") with false by (vm_compute; reflexivity).
  replace (path_matches "/api/speedtest" "/health") with false by (vm_compute; reflexivity).
  replace (path_matches "/api/health" "/health") with false by (vm_compute; reflexivity).
  rewrite !andb_false_r. reflexivity.
Qed.

(** C7, as the code has it. The health check is GET /api/health: it
    answers the liveness indication ([status] "OK" and the process
    uptime) and the system-load snapshot, and nothing else; the server
    keeps no session registry, and GET /health has no route (Express
    answers 404). *)
Theorem C7_health_reports_uptime_and_load (req : Request) (w : World) :
  let resp := run (health_handler req) w in
  find_route app GET "/api/health" = Some health_handler /\
  statusCode resp = send_status w req (body resp) /\
  keys (json_of resp) = ["status"; "uptime"; "load"] /\
  member "status" (json_of resp) = Some (JString "OK") /\
  member "uptime" (json_of resp) = Some (JNumber (uptime (process w))) /\
  member "load" (json_of resp) = Some (to_json (SystemLoad_val (run getSystemLoad w))) /\
  keys (to_json (SystemLoad_val (run getSystemLoad w))) = ["cpuCount"; "avgLoad"; "freeMem"] /\
  find_route app GET "/health" = None /\
  statusCode (run (dispatch (get "/health")) w) = 404.
Proof.
  intros resp. unfold resp, run. rewrite health_handler_eq.
  unfold dispatch, route. cbn [req_method req_path get middleware cors express_json has_body
                               header lookup req_headers].
  rewrite routed_path_eq by discriminate. rewrite no_health_route.
  destruct routes_found as [_ [_ R]].
  repeat split; assumption.
Qed.

(** C7 fails as stated: GET /health is not routed, and the health
    check that exists reports status, uptime and system load, with no
    registry occupancy among its members. *)
Lemma C7_counterexample :
  statusCode (run (dispatch (get "/health")) sample_world) = 404 /\
  keys (json_of (run (dispatch (get "/api/health")) sample_world))
    = ["status"; "uptime"; "load"] /\
  at_path ["load"] (json_of (run (dispatch (get "/api/health")) sample_world))
    = Some (JObject [("cpuCount", JNumber 2); ("avgLoad", JNumber (1 # 2));
                     ("freeMem", JString "37.50")]).
Proof. vm_compute. repeat split. Qed.


(** *** Encoding of timestamps, rates and times *)

(** C3, as the code has it. In the answer of GET /api/speedtest the
    timestamp is an ISO-8601 string; download and upload are numbers
    with at most one decimal place, in [30, 120] and [10, 60] (they are
    not integers in general); ping is a number with at most one decimal
    place in [8, 40]. *)
Theorem C3_speedtest_encoding (req : Request) (w : World) :
  unit_draws w -> valid_time (clock w) = true ->
  let j := json_of (run (speedtest_handler req) w) in
  (member "timestamp" j = Some (JString (toISOString (clock w))) /\
   is_iso8601 (toISOString (clock w)) = true) /\
  (exists n : Z, at_path ["data"; "download"] j = Some (JNumber (decimal n 1)) /\
                 (300 <= n <= 1200)%Z) /\
  (exists n : Z, at_path ["data"; "upload"] j = Some (JNumber (decimal n 1)) /\
                 (100 <= n <= 600)%Z) /\
  (exists n : Z, at_path ["data"; "ping"] j = Some (JNumber (decimal n 1)) /\
                 (80 <= n <= 400)%Z).
Proof.
  intros Hw Ht j. unfold j. rewrite speedtest_handler_eq.
  cbn [json_of body].
  destruct (speedtest_members w) as [E1 [E2 [E3 _]]].
  cbv zeta in E1, E2, E3. rewrite E1, E2, E3. rewrite generateSpeedStats_eq.
  cbn [ping download upload].
  split.
  { split; [|apply toISOString_iso; exact Ht].
    unfold speedtest_value.
    cbn [to_json map fst snd member assoc]. cbn [String.eqb Ascii.eqb Bool.eqb].
    unfold json_of_date. rewrite Ht. reflexivity. }
  split; [|split].
  - destruct (download_range _ (proj1 (Hw (S (drawn w)))) (proj2 (Hw (S (drawn w)))))
      as [[n [E H]] _].
    exists n. rewrite E. split; [reflexivity | exact H].
  - destruct (upload_range _ (proj1 (Hw (S (S (drawn w))))) (proj2 (Hw (S (S (drawn w))))))
      as [[n [E H]] _].
    exists n. rewrite E. split; [reflexivity | exact H].
  - destruct (ping_range _ (proj1 (Hw (drawn w))) (proj2 (Hw (drawn w))))
      as [[n [E H]] _].
    exists n. rewrite E. split; [reflexivity | exact H].
Qed.

Lemma sample_clock_valid : valid_time (clock sample_world) = true.
Proof. reflexivity. Qed.

Lemma C3_witness :
  let j := json_of (run (speedtest_handler (get "/api/speedtest")) sample_world) in
  (member "timestamp" j = Some (JString (toISOString (clock sample_world))) /\
   is_iso8601 (toISOString (clock sample_world)) = true) /\
  (exists n : Z, at_path ["data"; "download"] j = Some (JNumber (decimal n 1)) /\
                 (300 <= n <= 1200)%Z) /\
  (exists n : Z, at_path ["data"; "upload"] j = Some (JNumber (decimal n 1)) /\
                 (100 <= n <= 600)%Z) /\
  (exists n : Z, at_path ["data"; "ping"] j = Some (JNumber (decimal n 1)) /\
                 (80 <= n <= 400)%Z).
Proof.
  exact (C3_speedtest_encoding (get "/api/speedtest") sample_world
           sample_unit_draws sample_clock_valid).
Defined.

(** C3 fails as stated: with the second draw at 1/8 the download value
    is 41.3 (the double nearest to it), which is no integer. *)
Lemma C3_counterexample :
  at_path ["data"; "download"]
    (json_of (run (speedtest_handler (get "/api/speedtest")) sample_world))
  = Some (JNumber (decimal 413 1)) /\
  is_integer (JNumber (decimal 413 1)) = false.
Proof. vm_compute. split; reflexivity. Qed.

Lemma sample_requests_reach :
  reaches_routes sample_world (get "/api/speedtest") /\
  reaches_routes sample_world (get "/api/health") /\
  unconditional (get "/api/speedtest").
Proof. repeat split. Qed.

Lemma C1_witness :
  let req := get "/api/speedtest" in
  let hreq := get "/api/health" in
  let w := sample_world in
  let resp := run (dispatch req) w in
  let j := json_of resp in
  let health := run (dispatch hreq) w in
  let hj := json_of health in
  (statusCode resp = send_status w req (body resp) /\
   (unconditional req ->
    statusCode resp = 200 /\ (req_method req = GET -> written req resp = Some (Json j)))) /\
  holds_metrics w j /\
  holds_load (os w) (at_path ["server"; "cpuCount"] j) (at_path ["server"; "load"] j)
    (at_path ["server"; "memoryFree"] j) "%" /\
  (statusCode health = send_status w hreq (body health) /\
   (unconditional hreq -> statusCode health = 200)) /\
  member "status" hj = Some (JString "OK") /\
  holds_load (os w) (at_path ["load"; "cpuCount"] hj) (at_path ["load"; "avgLoad"] hj)
    (at_path ["load"; "freeMem"] hj) "".
Proof.
  exact (C1_speedtest_metrics_load_and_health (get "/api/speedtest") (get "/api/health")
           sample_world sample_unit_draws
           (proj1 sample_requests_reach) eq_refl
           (proj1 (proj2 sample_requests_reach)) eq_refl).
Defined.

(** *** No session to open *)

(** A speed test takes four draws; no other request takes any; nothing
    else of the world changes. *)
Lemma advance_0 w : advance 0 w = w.
Proof. destruct w. unfold advance. cbn. rewrite Nat.add_0_r. reflexivity. Qed.

Lemma advance_advance a b w : advance a (advance b w) = advance (b + a) w.
Proof. unfold advance. cbn. f_equal. lia. Qed.

Lemma route_world req w :
  snd (route req w) = advance (if asks_for "/api/speedtest" req then 4 else 0) w.
Proof.
  unfold route, asks_for. rewrite find_route_app.
  rewrite <- (routed_path_below_root (runtime w) (req_path req) "/api/speedtest")
    by discriminate.
  set (p := routed_path (runtime w) (req_path req)).
  destruct (get_or_head (req_method req)); cbn [andb]; [|symmetry; apply advance_0].
  destruct (String.eqb (normal_path p) "") eqn:E0.
  - assert (E1 : String.eqb (normal_path p) "/api/speedtest" = false).
    { apply String.eqb_eq in E0. rewrite E0. reflexivity. }
    rewrite E1, root_handler_eq. symmetry. apply advance_0.
  - destruct (String.eqb (normal_path p) "/api/speedtest").
    + rewrite speedtest_handler_world, generateSpeedStats_world.
      unfold advance. f_equal. lia.
    + destruct (String.eqb (normal_path p) "/api/health").
      * rewrite health_handler_eq. symmetry. apply advance_0.
      * symmetry. apply advance_0.
Qed.

Lemma dispatch_world req w :
  snd (dispatch req w) = advance (if runs_speedtest w req then 4 else 0) w.
Proof.
  unfold dispatch, runs_speedtest.
  destruct (middleware (runtime w) req); [symmetry; apply advance_0 | apply route_world].
Qed.

Lemma serve_seq_cons req rest w :
  serve_seq (req :: rest) w =
  (run (dispatch req) w :: fst (serve_seq rest (snd (dispatch req w))),
   snd (serve_seq rest (snd (dispatch req w)))).
Proof.
  cbn [serve_seq]. unfold bind, ret, run.
  destruct (dispatch req w) as [a w1]. cbn [fst snd].
  destruct (serve_seq rest w1) as [more w2]. reflexivity.
Qed.

Lemma no_session_route req w :
  opens_session req -> reaches_routes w req ->
  dispatch req w =
  ({| statusCode := 404;
      body := Text ("Cannot " ++ method_name (req_method req) ++ " " ++ req_path req) |}, w).
Proof.
  intros [Hm Hp] Hr. rewrite (dispatch_reaches _ _ Hr).
  unfold route. rewrite find_route_app, Hm. reflexivity.
Qed.

(** C8, as the code has it. The server has no session registry and no
    [open]: POST /sessions, the request the specification opens a
    session with, finds no route.  However many of them are served, one
    after the other, each that gets to the routes is answered 404: none
    is given a session and none is refused for lack of capacity, and
    the server keeps nothing of them. *)
Theorem C8_no_session_to_open (reqs : list Request) (w : World) :
  Forall opens_session reqs -> Forall (reaches_routes w) reqs ->
  Forall (fun r => statusCode r = 404) (fst (serve_seq reqs w)) /\
  List.length (fst (serve_seq reqs w)) = List.length reqs /\
  count gives_session (fst (serve_seq reqs w)) = 0 /\
  count is_capacity_failure (fst (serve_seq reqs w)) = 0 /\
  snd (serve_seq reqs w) = w.
Proof.
  intros Ho Hr. induction Ho as [|req rest Hreq _ IH].
  - cbn. repeat split. constructor.
  - inversion Hr as [|r l Hr1 Hr2]; subst.
    rewrite serve_seq_cons. unfold run.
    rewrite (no_session_route req w Hreq Hr1). cbn [fst snd].
    destruct (IH Hr2) as [I1 [I2 [I3 [I4 I5]]]].
    unfold count in *. cbn [filter List.length gives_session is_capacity_failure body
                            statusCode Nat.eqb orb].
    split; [constructor; [reflexivity | exact I1]|].
    split; [rewrite I2; reflexivity|].
    split; [exact I3|]. split; [exact I4 | exact I5].
Qed.

Lemma C8_witness :
  let reqs := [post "/sessions"; post "/sessions"; post "/sessions/"] in
  Forall (fun r => statusCode r = 404) (fst (serve_seq reqs sample_world)) /\
  List.length (fst (serve_seq reqs sample_world)) = List.length reqs /\
  count gives_session (fst (serve_seq reqs sample_world)) = 0 /\
  count is_capacity_failure (fst (serve_seq reqs sample_world)) = 0 /\
  snd (serve_seq reqs sample_world) = sample_world.
Proof.
  apply (C8_no_session_to_open [post "/sessions"; post "/sessions"; post "/sessions/"]
           sample_world).
  - repeat constructor.
  - repeat constructor.
Defined.

(** C8 fails as stated: POST /sessions opens nothing.  It is answered
    404, with no session and no Capacity failure; and of two such
    requests neither is given a session and neither is refused for
    capacity, where the claim has exactly one Capacity failure among
    cap + 1 requests and a session for each of the others. *)
Lemma C8_counterexample :
  statusCode (run (dispatch (post "/sessions")) sample_world) = 404 /\
  gives_session (run (dispatch (post "/sessions")) sample_world) = false /\
  is_capacity_failure (run (dispatch (post "/sessions")) sample_world) = false /\
  count gives_session (fst (serve_seq [post "/sessions"; post "/sessions"] sample_world)) = 0 /\
  count is_capacity_failure
    (fst (serve_seq [post "/sessions"; post "/sessions"] sample_world)) = 0.
Proof. vm_compute. repeat split. Qed.

End Routes.

(** ** The latency prober of the specification *)
Section Latency.
Local Open Scope Q_scope.
Import LatencyProber.

Lemma insert_In x y l : In y (insert x l) <-> y = x \/ In y l.
Proof.
  induction l as [|a l IH]; cbn [insert].
  - cbn. intuition.
  - destruct (Qle_bool x a); cbn [In].
    + intuition.
    + rewrite IH. intuition.
Qed.

Lemma sort_In y l : In y (sort l) <-> In y l.
Proof.
  induction l as [|a l IH]; cbn [sort fold_right]; [reflexivity|].
  fold (sort l). rewrite insert_In, IH. cbn [In]. intuition.
Qed.

Lemma insert_length x l : List.length (insert x l) = S (List.length l).
Proof.
  induction l as [|a l IH]; cbn [insert]; [reflexivity|].
  destruct (Qle_bool x a); cbn [List.length]; [reflexivity | rewrite IH; reflexivity].
Qed.

Lemma sort_length l : List.length (sort l) = List.length l.
Proof.
  induction l as [|a l IH]; cbn [sort fold_right]; [reflexivity|].
  fold (sort l). rewrite insert_length, IH. reflexivity.
Qed.

(** A sample set that is not empty has a least and a greatest sample. *)
Lemma extremes (l : list Q) :
  l <> [] ->
  exists lo hi : Q, In lo l /\ In hi l /\ forall x : Q, In x l -> lo <= x /\ x <= hi.
Proof.
  induction l as [|a l IH]; [congruence|]. intros _.
  destruct l as [|b l].
  - exists a, a. cbn. split; [tauto|]. split; [tauto|].
    intros x [<- | []]. split; apply Qle_refl.
  - destruct (IH ltac:(discriminate)) as [lo [hi [Hlo [Hhi H]]]].
    exists (if Qle_bool a lo then a else lo), (if Qle_bool hi a then a else hi).
    split; [|split].
    + destruct (Qle_bool a lo); [left; reflexivity | right; exact Hlo].
    + destruct (Qle_bool hi a); [left; reflexivity | right; exact Hhi].
    + intros x [<- | Hx].
      * split.
        -- destruct (Qle_bool a lo) eqn:E; [apply Qle_refl|].
           apply Qlt_le_weak, Qnot_le_lt. intros C. apply Qle_bool_iff in C. congruence.
        -- destruct (Qle_bool hi a) eqn:E; [apply Qle_refl|].
           apply Qlt_le_weak, Qnot_le_lt. intros C. apply Qle_bool_iff in C. congruence.
      * destruct (H x Hx) as [H1 H2]. split.
        -- destruct (Qle_bool a lo) eqn:E; [|exact H1].
           apply Qle_bool_iff in E. eapply Qle_trans; eassumption.
        -- destruct (Qle_bool hi a) eqn:E; [|exact H2].
           apply Qle_bool_iff in E. eapply Qle_trans; eassumption.
Qed.

(** The median lies between any two bounds of the samples. *)
Lemma median_between (l : list Q) (lo hi : Q) :
  l <> [] -> (forall x : Q, In x l -> lo <= x /\ x <= hi) ->
  lo <= median l /\ median l <= hi.
Proof.
  intros Hne H. unfold median.
  assert (Hlen : (0 < List.length (sort l))%nat).
  { rewrite sort_length. destruct l; [congruence | cbn; lia]. }
  assert (Hnth : forall k : nat, (k < List.length (sort l))%nat ->
                   lo <= nth k (sort l) 0 /\ nth k (sort l) 0 <= hi).
  { intros k Hk. apply H. apply sort_In. apply nth_In. exact Hk. }
  set (n := List.length (sort l)) in *.
  assert (Hhalf : (n / 2 < n)%nat) by (apply Nat.div_lt; lia).
  destruct (Nat.even n) eqn:E.
  - assert (Hpred : (n / 2 - 1 < n)%nat) by lia.
    destruct (Hnth _ Hhalf) as [A1 A2]. destruct (Hnth _ Hpred) as [B1 B2].
    split.
    + apply Qle_shift_div_l; [reflexivity | lra].
    + apply Qle_shift_div_r; [reflexivity | lra].
  - apply Hnth. exact Hhalf.
Qed.

Lemma sum_nonneg (l : list Q) : (forall x : Q, In x l -> 0 <= x) -> 0 <= sum l.
Proof.
  induction l as [|a l IH]; intros H; cbn [sum fold_right]; [apply Qle_refl|].
  fold (sum l).
  assert (0 <= a) by (apply H; left; reflexivity).
  assert (0 <= sum l) by (apply IH; intros x Hx; apply H; right; exact Hx).
  lra.
Qed.

Lemma abs_diffs_nonneg (l : list Q) : forall x : Q, In x (abs_diffs l) -> 0 <= x.
Proof.
  induction l as [|a l IH]; [intros x []|].
  destruct l as [|b l]; [intros x []|].
  intros x [<- | Hx]; [apply Qabs_nonneg | apply IH; exact Hx].
Qed.

Lemma jitter_nonneg (l : list Q) : 0 <= jitter l.
Proof.
  unfold jitter. pose proof (abs_diffs_nonneg l) as H.
  destruct (abs_diffs l) as [|d ds]; [apply Qle_refl|].
  apply Qle_shift_div_l.
  - rewrite <- (Zlt_Qlt 0). cbn [List.length]. lia.
  - rewrite Qmult_0_l. apply sum_nonneg. exact H.
Qed.

(** C9, for the prober the specification describes. A latency
    measurement of at least two probes is completed; its ping, the
    median of the recorded samples, lies between the least and the
    greatest of them, and its jitter is not negative. *)
Theorem C9_median_within_samples_and_jitter (round_trips : list Q) :
  (2 <= List.length round_trips)%nat ->
  exists (r : LatencyResult) (lo hi : Q),
    probe round_trips = Some r /\
    In lo (recorded round_trips) /\ In hi (recorded round_trips) /\
    (forall x : Q, In x (recorded round_trips) -> lo <= x /\ x <= hi) /\
    lo <= result_ping r /\ result_ping r <= hi /\ 0 <= result_jitter r.
Proof.
  intros Hlen.
  destruct round_trips as [|first samples]; [cbn in Hlen; lia|].
  destruct samples as [|a samples]; [cbn in Hlen; lia|].
  destruct (extremes (a :: samples) ltac:(discriminate)) as [lo [hi [Hlo [Hhi H]]]].
  exists {| result_ping := median (a :: samples);
            result_jitter := jitter (a :: samples);
            result_samples := List.length (a :: samples) |}, lo, hi.
  cbn [recorded tl result_ping result_jitter].
  split; [reflexivity|]. split; [exact Hlo|]. split; [exact Hhi|]. split; [exact H|].
  destruct (median_between (a :: samples) lo hi ltac:(discriminate) H) as [M1 M2].
  split; [exact M1|]. split; [exact M2 | apply jitter_nonneg].
Qed.

Lemma C9_witness :
  exists (r : LatencyResult) (lo hi : Q),
    probe [90; 21; 25 # 2; 40; 23] = Some r /\
    In lo (recorded [90; 21; 25 # 2; 40; 23]) /\ In hi (recorded [90; 21; 25 # 2; 40; 23]) /\
    (forall x : Q, In x (recorded [90; 21; 25 # 2; 40; 23]) -> lo <= x /\ x <= hi) /\
    lo <= result_ping r /\ result_ping r <= hi /\ 0 <= result_jitter r.
Proof.
  apply (C9_median_within_samples_and_jitter [90; 21; 25 # 2; 40; 23]). cbn. lia.
Defined.

(** The measurement of the witness: the first probe (90 ms) is
    discarded; the median of 12.5, 21, 23, 40 is 22 and the jitter
    (8.5 + 27.5 + 17) / 3. *)
Example sample_probe :
  probe [90; 21; 25 # 2; 40; 23]
  = Some {| result_ping := median [21; 25 # 2; 40; 23];
            result_jitter := jitter [21; 25 # 2; 40; 23];
            result_samples := 4 |} /\
  median [21; 25 # 2; 40; 23] == 22 /\ jitter [21; 25 # 2; 40; 23] == 53 # 3.
Proof. split; [reflexivity|]. split; vm_compute; reflexivity. Qed.

End Latency.


(** ** What the two utility functions depend on *)
Section Determinism.
Local Open Scope nat_scope.

(** C6, as the code has it. Neither function is pure: each is a
    deterministic function of what it reads.  [generateSpeedStats]
    depends on the next four draws of [Math.random()] only, and
    [getSystemLoad] on four readings of the operating system only (the
    CPU list, the load average, the free and the total memory), which
    it leaves as they are. *)
Theorem C6_deterministic_in_what_they_read (w1 w2 : World) :
  (same_draws 4 w1 w2 -> run generateSpeedStats w1 = run generateSpeedStats w2) /\
  (cpus (os w1) = cpus (os w2) -> loadavg (os w1) = loadavg (os w2) ->
   freemem (os w1) = freemem (os w2) -> totalmem (os w1) = totalmem (os w2) ->
   run getSystemLoad w1 = run getSystemLoad w2) /\
  snd (getSystemLoad w1) = w1.
Proof.
  split; [|split].
  - intros H. rewrite !generateSpeedStats_eq.
    pose proof (H 0 ltac:(lia)) as H0. pose proof (H 1 ltac:(lia)) as H1.
    pose proof (H 2 ltac:(lia)) as H2. pose proof (H 3 ltac:(lia)) as H3.
    rewrite !Nat.add_succ_r, !Nat.add_0_r in *.
    rewrite H0, H1, H2, H3. reflexivity.
  - intros Hc Hl Hf Ht. unfold run. rewrite !getSystemLoad_eq. cbn [fst].
    rewrite Hc, Hl, Hf, Ht. reflexivity.
  - rewrite getSystemLoad_eq. reflexivity.
Qed.

Lemma sample_same_draws : same_draws 4 sample_world shifted_world.
Proof.
  intros i Hi. unfold sample_world, shifted_world. cbn [random drawn].
  do 4 (destruct i as [|i]; [reflexivity|]). lia.
Qed.

Lemma C6_witness :
  run generateSpeedStats sample_world = run generateSpeedStats shifted_world /\
  run getSystemLoad sample_world = run getSystemLoad shifted_world.
Proof.
  split.
  - exact (proj1 (C6_deterministic_in_what_they_read sample_world shifted_world)
             sample_same_draws).
  - exact (proj1 (proj2 (C6_deterministic_in_what_they_read sample_world shifted_world))
             eq_refl eq_refl eq_refl eq_refl).
Defined.

(** C6 fails as stated: two calls of [generateSpeedStats], both with
    no argument, one right after the other, return different results;
    and so do two calls of [getSystemLoad] a moment apart. *)
Lemma C6_counterexample :
  run generateSpeedStats sample_world
    <> run generateSpeedStats (snd (generateSpeedStats sample_world)) /\
  run getSystemLoad sample_world <> run getSystemLoad later_world.
Proof.
  split; intros H; vm_compute in H; discriminate H.
Qed.

End Determinism.

(** ** The cluster *)
Section ClusterFacts.
Local Open Scope nat_scope.
Variable spawn_pid : N -> N.

Lemma fork_loop_forked k : forall p,
  forked (fork_loop spawn_pid k p) = k + forked p.
Proof.
  induction k as [|k IH]; intros p; [reflexivity|].
  cbn [fork_loop]. rewrite IH. cbn [cluster_fork forked]. lia.
Qed.

Lemma fork_loop_workers k : forall p,
  List.length (workers (fork_loop spawn_pid k p)) = k + List.length (workers p).
Proof.
  induction k as [|k IH]; intros p; [reflexivity|].
  cbn [fork_loop]. rewrite IH. cbn [cluster_fork workers].
  rewrite length_app. cbn [List.length]. lia.
Qed.

Lemma fork_loop_listener k : forall p,
  exit_listener (fork_loop spawn_pid k p) = exit_listener p.
Proof.
  induction k as [|k IH]; intros p; [reflexivity|].
  cbn [fork_loop]. rewrite IH. reflexivity.
Qed.

Lemma cluster_fork_ids_ok p : ids_ok p -> ids_ok (cluster_fork spawn_pid p).
Proof.
  intros [ND LT]. unfold ids_ok. cbn [cluster_fork workers next_id]. split.
  - rewrite map_app. cbn [map worker_id].
    apply NoDup_app; [exact ND | repeat constructor; intros [] |].
    intros a Ha [<- | []]. apply in_map_iff in Ha. destruct Ha as [x [Hx Hin]].
    rewrite Forall_forall in LT. specialize (LT x Hin). lia.
  - apply Forall_app. split.
    + eapply Forall_impl; [|exact LT]. intros x Hx. cbn beta in Hx. lia.
    + repeat constructor. cbn [worker_id]. lia.
Qed.

Lemma fork_loop_ids_ok k : forall p, ids_ok p -> ids_ok (fork_loop spawn_pid k p).
Proof.
  induction k as [|k IH]; intros p H; [exact H|].
  cbn [fork_loop]. apply IH, cluster_fork_ids_ok, H.
Qed.

Lemma remove_worker_length x ws :
  NoDup (map worker_id ws) -> In x ws ->
  S (List.length (remove_worker x ws)) = List.length ws.
Proof.
  unfold remove_worker. induction ws as [|y ws IH]; intros ND Hin; [destruct Hin|].
  cbn [map] in ND. inversion ND as [|a l Hnotin ND' E]; subst.
  cbn [filter List.length].
  destruct Hin as [-> | Hin].
  - rewrite N.eqb_refl. cbn [negb]. f_equal.
    clear IH ND. induction ws as [|z ws IHws]; [reflexivity|].
    cbn [filter map] in *.
    destruct (N.eqb_spec (worker_id z) (worker_id x)) as [E|NE].
    + exfalso. apply Hnotin. left. exact E.
    + cbn [negb List.length]. f_equal. apply IHws.
      * intros C. apply Hnotin. right. exact C.
      * inversion ND' as [|a l _ ND'' E']; subst. exact ND''.
  - destruct (N.eqb_spec (worker_id y) (worker_id x)) as [E|NE].
    + exfalso. apply Hnotin. rewrite E. apply in_map. exact Hin.
    + cbn [negb List.length]. f_equal. apply IH; assumption.
Qed.

Lemma remove_worker_ids_ok x ws bound :
  NoDup (map worker_id ws) -> Forall (fun y => (worker_id y < bound)%N) ws ->
  NoDup (map worker_id (remove_worker x ws)) /\
  Forall (fun y => (worker_id y < bound)%N) (remove_worker x ws).
Proof.
  unfold remove_worker. induction ws as [|y ws IH]; intros ND LT; [split; constructor|].
  cbn [map] in ND. inversion ND as [|a l Hnotin ND' E]; subst.
  inversion LT as [|b l' Hy LT' E']; subst.
  destruct (IH ND' LT') as [IH1 IH2].
  cbn [filter]. destruct (negb (worker_id y =? worker_id x)%N).
  - split; [|constructor; assumption].
    cbn [map]. constructor; [|exact IH1].
    intros C. apply Hnotin. apply in_map_iff in C. destruct C as [z [Ez Hz]].
    apply filter_In in Hz. rewrite <- Ez. apply in_map. apply Hz.
  - split; assumption.
Qed.

Lemma reachable_invariant w exits p :
  reachable spawn_pid w exits p ->
  exit_listener p = true /\ ids_ok p /\
  forked p = List.length (cpus (os w)) + exits /\
  List.length (workers p) = List.length (cpus (os w)).
Proof.
  induction 1 as [|exits p x _ IH Hin].
  - unfold main. cbn [cluster_on_exit exit_listener workers forked next_id ids_ok].
    unfold ids_ok. cbn [cluster_on_exit workers next_id].
    rewrite fork_loop_forked, fork_loop_workers.
    split; [reflexivity|]. split; [|cbn; lia].
    apply (fork_loop_ids_ok _ (console_log _ (console_log _ fresh))).
    split; constructor.
  - destruct IH as [L [[ND LT] [F W]]].
    unfold worker_exit. rewrite L.
    unfold exit_handler, ids_ok.
    cbn [cluster_fork console_log exit_listener workers forked next_id].
    destruct (remove_worker_ids_ok x (workers p) (next_id p) ND LT) as [ND' LT'].
    split; [reflexivity|]. split; [|split].
    + apply (cluster_fork_ids_ok
               {| workers := remove_worker x (workers p); next_id := next_id p;
                  forked := forked p; exit_listener := exit_listener p;
                  listening := listening p; uncaught := uncaught p; console := console p |}).
      split; assumption.
    + lia.
    + rewrite length_app. cbn [List.length].
      pose proof (remove_worker_length x (workers p) ND Hin). lia.
Qed.

Lemma PORT_default w : env (process w) "PORT"%string = None -> PORT w = "5000"%string.
Proof. unfold PORT. intros ->. reflexivity. Qed.

End ClusterFacts.

(** C5. The primary process forks exactly one worker per CPU at
    start-up, and exactly one more each time a worker exits: after any
    number of exits the forks made are the CPUs plus the exits, and the
    live workers are as many as the CPUs. *)
Theorem C5_one_worker_per_cpu_and_restart
  (spawn_pid : N -> N) (w : World) (exits : nat) (p : Proc) :
  reachable spawn_pid w exits p ->
  forked p = (List.length (cpus (os w)) + exits)%nat /\
  List.length (workers p) = List.length (cpus (os w)).
Proof.
  intros H. destruct (reachable_invariant spawn_pid w exits p H) as [_ [_ [F W]]].
  split; assumption.
Qed.

Lemma C5_witness :
  let p0 := main true sample_pids sample_world fresh in
  let p1 := worker_exit sample_pids {| worker_id := 1; worker_pid := 5001 |} p0 in
  (forked p0 = 2%nat /\ List.length (workers p0) = 2%nat) /\
  (forked p1 = 3%nat /\ List.length (workers p1) = 2%nat).
Proof.
  split.
  - exact (C5_one_worker_per_cpu_and_restart sample_pids sample_world 0 _
             (reach_start sample_pids sample_world)).
  - exact (C5_one_worker_per_cpu_and_restart sample_pids sample_world 1 _
             (reach_exit sample_pids sample_world 0 _ _
                (reach_start sample_pids sample_world) (or_introl eq_refl))).
Defined.

(* ================================================================== *)
(** * Part II, continued: further properties of the code *)
(* ================================================================== *)

(** ** Which results are possible *)
Section Attainability.
Local Open Scope Q_scope.

Lemma range_check_sound f n : forall lo v,
  range_check f lo n = true -> (lo <= v < lo + Z.of_nat n)%Z -> f v = true.
Proof.
  induction n as [|n IH]; intros lo v H Hv; [lia|].
  simpl in H. apply andb_true_iff in H. destruct H as [H0 H1].
  destruct (Z.eq_dec v lo) as [->|NE]; [exact H0|].
  apply (IH (lo + 1)%Z); [exact H1 | lia].
Qed.

Lemma attains_sound lo hi digits nhi n :
  attains lo hi digits nhi n = true ->
  let r := draw_for lo hi digits nhi n in
  0 <= r /\ r < 1 /\ fl r == r /\ scaled_draw r lo hi digits = Num (decimal n digits).
Proof.
  intros H r. unfold attains in H. fold r in H.
  repeat (apply andb_true_iff in H; destruct H as [H ?]).
  match goal with E : (_ =? _)%Z = true |- _ => apply Z.eqb_eq in E; rename E into En end.
  match goal with E : negb _ = true |- _ => apply negb_true_iff in E; rename E into E1 end.
  repeat match goal with E : Qle_bool _ _ = true |- _ => apply Qle_bool_iff in E end.
  match goal with E : Qeq_bool _ _ = true |- _ => apply Qeq_bool_iff in E; rename E into Ef end.
  split; [assumption|]. split; [|split; [exact Ef|]].
  - apply Qnot_le_lt. intros C. apply Qle_bool_iff in C. congruence.
  - unfold scaled_draw. rewrite unary_plus_toFixed by assumption. rewrite En. reflexivity.
Qed.

Lemma ping_attained : range_check (attains 8 40 1 400) 80 321 = true.
Proof. vm_compute. reflexivity. Qed.

Lemma download_attained : range_check (attains 30 120 1 1200) 300 901 = true.
Proof. vm_compute. reflexivity. Qed.

Lemma upload_attained : range_check (attains 10 60 1 600) 100 501 = true.
Proof. vm_compute. reflexivity. Qed.

Lemma accuracy_attained : range_check (attains 97 (lit (999 # 10)) 2 9990) 9700 291 = true.
Proof. vm_compute. reflexivity. Qed.

(** X1. The ranges are exact: whatever decimals are chosen within them,
    some four draws below 1 (binary64 values) make [generateSpeedStats]
    return just those. *)
Theorem every_result_in_range_is_possible (n1 n2 n3 n4 : Z) :
  (80 <= n1 <= 400)%Z -> (300 <= n2 <= 1200)%Z ->
  (100 <= n3 <= 600)%Z -> (9700 <= n4 <= 9990)%Z ->
  exists w : World,
    unit_draws w /\
    (forall i : nat, fl (random w i) == random w i) /\
    run generateSpeedStats w =
    {| ping := Num (decimal n1 1); download := Num (decimal n2 1);
       upload := Num (decimal n3 1); accuracy := Num (decimal n4 2) |}.
Proof.
  intros H1 H2 H3 H4.
  destruct (attains_sound _ _ _ _ _ (range_check_sound _ _ _ n1 ping_attained ltac:(lia)))
    as [A1 [B1 [F1 E1]]].
  destruct (attains_sound _ _ _ _ _ (range_check_sound _ _ _ n2 download_attained ltac:(lia)))
    as [A2 [B2 [F2 E2]]].
  destruct (attains_sound _ _ _ _ _ (range_check_sound _ _ _ n3 upload_attained ltac:(lia)))
    as [A3 [B3 [F3 E3]]].
  destruct (attains_sound _ _ _ _ _ (range_check_sound _ _ _ n4 accuracy_attained ltac:(lia)))
    as [A4 [B4 [F4 E4]]].
  exists (world_drawing (draw_for 8 40 1 400 n1) (draw_for 30 120 1 1200 n2)
                        (draw_for 10 60 1 600 n3) (draw_for 97 (lit (999 # 10)) 2 9990 n4)).
  split; [|split].
  - intros i. unfold world_drawing, four_draws. cbn [random].
    destruct i as [|[|[|i]]]; split; assumption.
  - intros i. unfold world_drawing, four_draws. cbn [random].
    destruct i as [|[|[|i]]]; assumption.
  - rewrite generateSpeedStats_eq. unfold world_drawing. cbn [random drawn four_draws].
    rewrite E1, E2, E3, E4. reflexivity.
Qed.

Lemma every_result_in_range_is_possible_witness :
  exists w : World,
    unit_draws w /\
    (forall i : nat, fl (random w i) == random w i) /\
    run generateSpeedStats w =
    {| ping := Num (decimal 400 1); download := Num (decimal 300 1);
       upload := Num (decimal 355 1); accuracy := Num (decimal 9990 2) |}.
Proof.
  apply (every_result_in_range_is_possible 400 300 355 9990); lia.
Defined.

End Attainability.

(** ** Order and rounding *)
Section Monotone.
Local Open Scope Q_scope.

Lemma scaled_draw_mono r r' lo hi digits :
  0 <= r -> r <= r' ->
  Qle_bool 0 lo = true -> Qle_bool 0 (fsub hi lo) = true ->
  number_le (scaled_draw r lo hi digits) (scaled_draw r' lo hi digits).
Proof.
  intros H0 Hrr Hlo Hd. apply Qle_bool_iff in Hlo. apply Qle_bool_iff in Hd.
  set (d := fsub hi lo) in *.
  assert (P : 0 <= r * d) by (apply Qmult_le_0_compat; assumption).
  assert (P' : r * d <= r' * d) by (apply Qmult_le_compat_r; assumption).
  assert (M0 : 0 <= fmul r d) by (apply fl_nonneg; exact P).
  assert (M : fmul r d <= fmul r' d) by (apply fl_mono; assumption).
  assert (A0 : 0 <= fadd (fmul r d) lo) by (apply fl_nonneg; lra).
  assert (A : fadd (fmul r d) lo <= fadd (fmul r' d) lo) by (apply fl_mono; lra).
  unfold scaled_draw. fold d.
  rewrite !unary_plus_toFixed by lra.
  cbn [number_le]. apply decimal_mono. split.
  - apply nearest_scaled_nonneg. exact A0.
  - apply nearest_scaled_mono. exact A.
Qed.

(** X2. A larger draw never gives a smaller value: each field of
    [generateSpeedStats] is a non-decreasing function of its draw. *)
Theorem speed_stats_monotone (w w' : World) :
  (forall i : nat, (i < 4)%nat ->
     0 <= random w (drawn w + i) /\ random w (drawn w + i) <= random w' (drawn w' + i)) ->
  let s := run generateSpeedStats w in
  let s' := run generateSpeedStats w' in
  number_le (ping s) (ping s') /\ number_le (download s) (download s') /\
  number_le (upload s) (upload s') /\ number_le (accuracy s) (accuracy s').
Proof.
  intros H s s'. unfold s, s'. rewrite !generateSpeedStats_eq.
  cbn [ping download upload accuracy].
  pose proof (H 0%nat ltac:(lia)) as H0. pose proof (H 1%nat ltac:(lia)) as H1.
  pose proof (H 2%nat ltac:(lia)) as H2. pose proof (H 3%nat ltac:(lia)) as H3.
  rewrite !Nat.add_succ_r, !Nat.add_0_r in *.
  split; [|split; [|split]];
    (apply scaled_draw_mono; [tauto | tauto | vm_compute; reflexivity ..]).
Qed.

Lemma speed_stats_monotone_witness :
  let s := run generateSpeedStats sample_world in
  let s' := run generateSpeedStats (snd (generateSpeedStats sample_world)) in
  number_le (ping s) (ping s') /\ number_le (download s) (download s') /\
  number_le (upload s) (upload s') /\ number_le (accuracy s) (accuracy s').
Proof.
  apply (speed_stats_monotone sample_world (snd (generateSpeedStats sample_world))).
  intros i Hi. rewrite generateSpeedStats_world.
  unfold sample_world, sample_random. cbn [random drawn].
  do 4 (destruct i as [|i]; [vm_compute; split; discriminate|]). lia.
Defined.

(** X3. Printing with [toFixed] and reading back moves a value by at most
    half a unit of the last decimal kept: each field is the number
    written n/10 (n/100 for accuracy) for the integer n nearest to the
    scaled draw. *)
Theorem speed_stats_rounding_error (w : World) :
  unit_draws w ->
  let r := fun i : nat => random w (drawn w + i) in
  let s := run generateSpeedStats w in
  (exists n : Z, ping s = Num (decimal n 1) /\
     Qabs (inject_Z n / 10 - fadd (fmul (r 0%nat) (fsub 40 8)) 8) <= 1 # 20) /\
  (exists n : Z, download s = Num (decimal n 1) /\
     Qabs (inject_Z n / 10 - fadd (fmul (r 1%nat) (fsub 120 30)) 30) <= 1 # 20) /\
  (exists n : Z, upload s = Num (decimal n 1) /\
     Qabs (inject_Z n / 10 - fadd (fmul (r 2%nat) (fsub 60 10)) 10) <= 1 # 20) /\
  (exists n : Z, accuracy s = Num (decimal n 2) /\
     Qabs (inject_Z n / 100 - fadd (fmul (r 3%nat) (fsub (lit (999 # 10)) 97)) 97) <= 1 # 200).
Proof.
  intros Hw r s. unfold r, s. rewrite generateSpeedStats_eq.
  cbn [ping download upload accuracy].
  rewrite !Nat.add_succ_r, !Nat.add_0_r.
  assert (G : forall x lo hi digits,
             0 <= x -> x < 1 -> Qle_bool 0 lo = true -> Qle_bool 0 (fsub hi lo) = true ->
             exists n : Z, scaled_draw x lo hi digits = Num (decimal n digits) /\
               Qabs (inject_Z n / inject_Z (pow10 digits) - fadd (fmul x (fsub hi lo)) lo)
               <= 1 / (2 * inject_Z (pow10 digits))).
  { intros x lo hi digits Hx0 Hx1 Hlo Hd.
    apply Qle_bool_iff in Hlo. apply Qle_bool_iff in Hd.
    assert (0 <= fmul x (fsub hi lo)) by (apply fl_nonneg, Qmult_le_0_compat; assumption).
    assert (0 <= fadd (fmul x (fsub hi lo)) lo) by (apply fl_nonneg; lra).
    exists (nearest_scaled digits (fadd (fmul x (fsub hi lo)) lo)). split.
    - unfold scaled_draw. apply unary_plus_toFixed. assumption.
    - apply nearest_scaled_near. }
  split; [|split; [|split]];
    (apply G; [apply Hw | apply Hw | vm_compute; reflexivity ..]).
Qed.

Lemma speed_stats_rounding_error_witness :
  let r := fun i : nat => random sample_world (drawn sample_world + i) in
  let s := run generateSpeedStats sample_world in
  (exists n : Z, ping s = Num (decimal n 1) /\
     Qabs (inject_Z n / 10 - fadd (fmul (r 0%nat) (fsub 40 8)) 8) <= 1 # 20) /\
  (exists n : Z, download s = Num (decimal n 1) /\
     Qabs (inject_Z n / 10 - fadd (fmul (r 1%nat) (fsub 120 30)) 30) <= 1 # 20) /\
  (exists n : Z, upload s = Num (decimal n 1) /\
     Qabs (inject_Z n / 10 - fadd (fmul (r 2%nat) (fsub 60 10)) 10) <= 1 # 20) /\
  (exists n : Z, accuracy s = Num (decimal n 2) /\
     Qabs (inject_Z n / 100 - fadd (fmul (r 3%nat) (fsub (lit (999 # 10)) 97)) 97) <= 1 # 200).
Proof. exact (speed_stats_rounding_error sample_world sample_unit_draws). Defined.

End Monotone.

(** ** Routing and what a worker keeps between requests *)
Section Routing.
Local Open Scope string_scope.
Local Open Scope nat_scope.

(** X5. A request that the middleware lets through is answered by the
    routes with 200, 304 or 404 and nothing else: a GET or HEAD request
    for one of the three paths, whatever their letter case and with or
    without one trailing slash, with the status of [res.send] (200, or
    304 to a conditional request whose cached copy is good), every
    other one with 404.  (The empty path, which no request has, and
    the path of two slashes, on which Express 4 and Express 5 part, are
    left aside.) *)
Theorem routes_answer_200_304_or_404 (req : Request) (w : World) :
  reaches_routes w req -> req_path req <> "" -> req_path req <> "//" ->
  let resp := run (dispatch req) w in
  statusCode resp =
    (if asks_for "" req || asks_for "/api/speedtest" req || asks_for "/api/health" req
     then send_status w req (body resp) else 404) /\
  (statusCode resp = 200 \/ statusCode resp = 304 \/ statusCode resp = 404) /\
  (unconditional req -> statusCode resp <> 304).
Proof.
  intros Hr _ Hp resp.
  assert (E : statusCode resp =
    if asks_for "" req || asks_for "/api/speedtest" req || asks_for "/api/health" req
    then send_status w req (body resp) else 404).
  { unfold resp, run. rewrite (dispatch_reaches _ _ Hr).
    unfold route, asks_for. rewrite (routed_path_eq _ _ Hp), find_route_app.
    destruct (get_or_head (req_method req)); cbn [andb orb]; [|reflexivity].
    destruct (String.eqb (normal_path (req_path req)) "");
      [cbn [orb]; rewrite root_handler_eq; reflexivity|].
    destruct (String.eqb (normal_path (req_path req)) "/api/speedtest");
      [cbn [orb]; fold (run (speedtest_handler req) w);
       rewrite speedtest_handler_eq; reflexivity|].
    destruct (String.eqb (normal_path (req_path req)) "/api/health");
      [cbn [orb]; rewrite health_handler_eq; reflexivity|].
    reflexivity. }
  split; [exact E|]. rewrite E.
  destruct (asks_for "" req || asks_for "/api/speedtest" req || asks_for "/api/health" req).
  - split.
    + destruct (send_status_cases w req (body resp)) as [-> | ->]; tauto.
    + intros Hu. rewrite (unconditional_status _ _ _ Hu). discriminate.
  - split; [tauto | discriminate].
Qed.

Lemma routes_answer_200_304_or_404_witness :
  let req := with_header "if-none-match" "*" (get "/API/Health/") in
  let resp := run (dispatch req) sample_world in
  statusCode resp =
    (if asks_for "" req || asks_for "/api/speedtest" req || asks_for "/api/health" req
     then send_status sample_world req (body resp) else 404) /\
  (statusCode resp = 200 \/ statusCode resp = 304 \/ statusCode resp = 404) /\
  (unconditional req -> statusCode resp <> 304).
Proof.
  apply (routes_answer_200_304_or_404
           (with_header "if-none-match" "*" (get "/API/Health/")) sample_world).
  - reflexivity.
  - discriminate.
  - discriminate.
Defined.

Lemma speedtests_cons w req rest :
  speedtests w (req :: rest) =
  (if runs_speedtest w req then 1 else 0) + speedtests w rest.
Proof.
  unfold speedtests. cbn [filter].
  destruct (runs_speedtest w req); reflexivity.
Qed.

Lemma speedtests_advance k w reqs : speedtests (advance k w) reqs = speedtests w reqs.
Proof. reflexivity. Qed.

(** X6. A worker that serves requests one after the other answers each of
    them as if it had come alone, in the world where only the draws of
    the speed tests before it are used up: four draws for each request
    that gets to the speed-test handler, none for any other (one that
    the middleware ends takes none), none shared between two tests, and
    nothing else is kept from one request to the next. *)
Theorem serve_seq_composes (reqs : list Request) (w : World) :
  snd (serve_seq reqs w) = advance (4 * speedtests w reqs) w /\
  List.length (fst (serve_seq reqs w)) = List.length reqs /\
  forall i : nat,
    nth_error (fst (serve_seq reqs w)) i =
    option_map (fun req => run (dispatch req) (advance (4 * speedtests w (firstn i reqs)) w))
               (nth_error reqs i).
Proof.
  revert w. induction reqs as [|req rest IH]; intros w.
  - cbn. rewrite advance_0. split; [reflexivity|]. split; [reflexivity|].
    intros [|i]; reflexivity.
  - rewrite serve_seq_cons. cbn [fst snd List.length].
    destruct (IH (snd (dispatch req w))) as [IH1 [IH2 IH3]].
    rewrite dispatch_world in *. rewrite speedtests_advance in *.
    rewrite speedtests_cons.
    split; [|split].
    + rewrite IH1, advance_advance. f_equal.
      destruct (runs_speedtest w req); lia.
    + rewrite IH2. reflexivity.
    + intros [|i].
      * cbn. rewrite advance_0. reflexivity.
      * cbn [nth_error firstn]. rewrite IH3, speedtests_cons, advance_advance.
        destruct (nth_error rest i); [|reflexivity]. cbn [option_map]. do 3 f_equal.
        destruct (runs_speedtest w req);
          unfold speedtests, runs_speedtest, advance; cbn [runtime]; lia.
Qed.

(** Three requests in the sample world: a speed test, one that
    [express.json()] refuses, and another speed test, which gets the
    draws 4 to 7. *)
Example serve_seq_example :
  let broken := with_json_body "ping" (get "/api/speedtest") in
  let reqs := [get "/api/speedtest"; broken; get "/api/speedtest"] in
  map statusCode (fst (serve_seq reqs sample_world)) = [200; 400; 200] /\
  speedtests sample_world reqs = 2 /\
  drawn (snd (serve_seq reqs sample_world)) = 8.
Proof. vm_compute. repeat split. Qed.

(** X7. Both JSON routes report one and the same snapshot of the system
    load: the health check's [load] object and the speed test's [server]
    object agree on CPU count and load average, and [memoryFree] is
    [freeMem] with a percent sign. *)
Theorem routes_report_same_load (req req' : Request) (w : World) :
  let st := json_of (run (speedtest_handler req) w) in
  let hc := json_of (run (health_handler req') w) in
  at_path ["server"; "cpuCount"] st = at_path ["load"; "cpuCount"] hc /\
  at_path ["server"; "load"] st = at_path ["load"; "avgLoad"] hc /\
  exists s : string,
    at_path ["load"; "freeMem"] hc = Some (JString s) /\
    at_path ["server"; "memoryFree"] st = Some (JString (s ++ "%")).
Proof.
  intros st hc.
  assert (Est : st = to_json (speedtest_value w)).
  { unfold st. rewrite speedtest_handler_eq. reflexivity. }
  assert (Ehc : hc = to_json (health_value w)).
  { unfold hc, run. rewrite health_handler_eq. reflexivity. }
  rewrite Est, Ehc.
  destruct (speedtest_members w) as [_ [_ [_ [_ [S1 [S2 S3]]]]]].
  destruct (health_members w) as [_ [_ [_ [_ [H1 [H2 H3]]]]]].
  cbv zeta in S1, S2, S3, H1, H2, H3. rewrite S1, S2, H1, H2.
  split; [reflexivity|]. split; [reflexivity|].
  exists (freeMem (run getSystemLoad w)). split; [exact H3 | exact S3].
Qed.

(** X8. The region reported is never empty: it is the REGION variable of
    the environment, or "primary" when that is unset or empty. *)
Theorem region_is_never_empty (req : Request) (w : World) :
  exists s : string,
    at_path ["server"; "region"] (json_of (run (speedtest_handler req) w)) = Some (JString s) /\
    s <> "" /\
    (env (process w) "REGION" = Some s \/
     s = "primary" /\ (env (process w) "REGION" = None \/ env (process w) "REGION" = Some "")).
Proof.
  rewrite speedtest_handler_eq.
  exists (or_default (env (process w) "REGION") "primary").
  split; [reflexivity|].
  unfold or_default. destruct (env (process w) "REGION") as [v|].
  - destruct (String.eqb_spec v "") as [->|NE].
    + split; [discriminate|]. right. split; [reflexivity | right; reflexivity].
    + split; [exact NE|]. left. reflexivity.
  - split; [discriminate|]. right. split; [reflexivity | left; reflexivity].
Qed.

End Routing.

(** ** More on the cluster *)
Section ClusterMore.
Local Open Scope string_scope.
Local Open Scope nat_scope.
Variable spawn_pid : N -> N.

Lemma fork_loop_frame k : forall p,
  listening (fork_loop spawn_pid k p) = listening p /\
  console (fork_loop spawn_pid k p) = console p.
Proof.
  induction k as [|k IH]; intros p; [split; reflexivity|].
  cbn [fork_loop]. destruct (IH (cluster_fork spawn_pid p)) as [L C].
  rewrite L, C. split; reflexivity.
Qed.

(** X9. The primary process never serves HTTP itself, keeps its "exit"
    listener registered, and writes two lines at start-up and one line
    per worker exit. *)
Theorem primary_never_listens (w : World) (exits : nat) (p : Proc) :
  reachable spawn_pid w exits p ->
  listening p = None /\ exit_listener p = true /\
  List.length (console p) = 2 + exits.
Proof.
  induction 1 as [|exits p x Hreach IH Hin].
  - unfold main. cbn [cluster_on_exit listening exit_listener console].
    destruct (fork_loop_frame (List.length (cpus (os w)))
                (console_log
                   ("🧠 Spawning " ++ digits_of (Z.of_nat (List.length (cpus (os w))))
                    ++ " workers for load balancing...")
                   (console_log
                      ("🚀 Master process started | PID: "
                       ++ digits_of (Z.of_N (pid (process w)))) fresh))) as [L C].
    rewrite L, C. repeat split.
  - destruct IH as [L [E C]].
    unfold worker_exit. rewrite E. unfold exit_handler.
    cbn [cluster_fork console_log listening exit_listener console List.length].
    rewrite L, C. repeat split.
Qed.

(** X10. When a worker exits, it leaves the list of live workers, every
    other worker stays, in order, and one new worker is appended, with
    an id no live or earlier worker has; the console names the process
    that died. *)
Theorem worker_exit_replaces_one (w : World) (exits : nat) (p : Proc) (x : Worker) :
  reachable spawn_pid w exits p -> In x (workers p) ->
  let p' := worker_exit spawn_pid x p in
  workers p' =
    (remove_worker x (workers p)
     ++ [{| worker_id := next_id p; worker_pid := spawn_pid (next_id p) |}])%list /\
  ~ In (worker_id x) (map worker_id (workers p')) /\
  ~ In (next_id p) (map worker_id (workers p)) /\
  (forall y : Worker, In y (workers p) -> worker_id y <> worker_id x -> In y (workers p')) /\
  hd "" (console p') =
    "⚠️ Worker " ++ digits_of (Z.of_N (worker_pid x)) ++ " died. Restarting...".
Proof.
  intros Hreach Hin p'.
  destruct (reachable_invariant spawn_pid w exits p Hreach) as [E [[ND LT] _]].
  assert (Hlt : forall y, In y (workers p) -> (worker_id y < next_id p)%N).
  { rewrite Forall_forall in LT. exact LT. }
  unfold p', worker_exit. rewrite E. unfold exit_handler.
  cbn [cluster_fork console_log workers console next_id hd].
  split; [reflexivity|]. split; [|split; [|split; [|reflexivity]]].
  - rewrite map_app, in_app_iff. cbn [map worker_id In]. intros [C | [C | []]].
    + apply in_map_iff in C. destruct C as [y [Ey Hy]].
      unfold remove_worker in Hy. apply filter_In in Hy. destruct Hy as [_ Hy].
      rewrite Ey, N.eqb_refl in Hy. discriminate Hy.
    + specialize (Hlt x Hin). lia.
  - intros C. apply in_map_iff in C. destruct C as [y [Ey Hy]].
    specialize (Hlt y Hy). lia.
  - intros y Hy Hne. apply in_or_app. left.
    unfold remove_worker. apply filter_In. split; [exact Hy|].
    apply negb_true_iff. apply N.eqb_neq. exact Hne.
Qed.

End ClusterMore.

Lemma primary_never_listens_witness :
  let p1 := worker_exit sample_pids {| worker_id := 2; worker_pid := 5002 |}
              (main true sample_pids sample_world fresh) in
  listening p1 = None /\ exit_listener p1 = true /\ List.length (console p1) = 3%nat.
Proof.
  exact (primary_never_listens sample_pids sample_world 1 _
           (reach_exit sample_pids sample_world 0 _ _
              (reach_start sample_pids sample_world) (or_intror (or_introl eq_refl)))).
Defined.

Lemma worker_exit_replaces_one_witness :
  let p0 := main true sample_pids sample_world fresh in
  let x := {| worker_id := 1; worker_pid := 5001 |} in
  let p' := worker_exit sample_pids x p0 in
  workers p' =
    (remove_worker x (workers p0)
     ++ [{| worker_id := next_id p0; worker_pid := sample_pids (next_id p0) |}])%list /\
  ~ In (worker_id x) (map worker_id (workers p')) /\
  ~ In (next_id p0) (map worker_id (workers p0)) /\
  (forall y : Worker, In y (workers p0) -> worker_id y <> worker_id x -> In y (workers p')) /\
  hd ""%string (console p') =
    ("⚠️ Worker " ++ digits_of (Z.of_N (worker_pid x)) ++ " died. Restarting...")%string.
Proof.
  exact (worker_exit_replaces_one sample_pids sample_world 0 _ _
           (reach_start sample_pids sample_world) (or_introl eq_refl)).
Defined.

(** X11. A worker process forks nothing and registers no exit listener.
    When PORT is unset or empty the port is 5000; when PORT (or that
    default) is a decimal numeral of at most 65535 and the operating
    system grants the port, the worker listens on it and writes one
    line naming it; when the operating system refuses, or the numeral
    is above 65535, the worker listens on nothing, writes no line and
    ends with the error. *)
Theorem worker_listens_on_port (spawn_pid : N -> N) (w : World) :
  let p := main false spawn_pid w fresh in
  let line := ("✅ Worker " ++ digits_of (Z.of_N (pid (process w)))
               ++ " running on port " ++ PORT w)%string in
  (forked p = 0%nat /\ workers p = [] /\ exit_listener p = false) /\
  (env (process w) "PORT"%string = None \/ env (process w) "PORT"%string = Some ""%string ->
   names_port (PORT w) 5000) /\
  (forall n : N, names_port (PORT w) n ->
     match bind_error (runtime w) (Port n) with
     | None => listening p = Some (Port n) /\ uncaught p = None /\ console p = [line]
     | Some code => listening p = None /\ uncaught p = Some code /\ console p = []
     end) /\
  (PORT w <> ""%string -> all_digits (PORT w) = true -> (65535 < value_of 0 (PORT w))%Z ->
   listening p = None /\ uncaught p = Some "ERR_SOCKET_BAD_PORT"%string /\ console p = []).
Proof.
  intros p line. split; [|split; [|split]].
  - unfold p, main, server_listen.
    destruct (listen_target (runtime w) (PORT w)) as [t|]; [|repeat split].
    destruct (bind_error (runtime w) t); repeat split.
  - intros H. unfold PORT, or_default.
    destruct H as [-> | ->]; vm_compute; repeat split; discriminate.
  - intros n [Hne [Hd [Hv Hn]]].
    assert (T : listen_target (runtime w) (PORT w) = Some (Port n)).
    { unfold listen_target. apply String.eqb_neq in Hne. rewrite Hne, Hd. cbn [negb andb].
      rewrite Hv. destruct (Z.leb_spec (Z.of_N n) 65535) as [_|C]; [|lia].
      rewrite N2Z.id. reflexivity. }
    unfold p, main, server_listen. rewrite T.
    destruct (bind_error (runtime w) (Port n)); repeat split.
  - intros Hne Hd Hv.
    assert (T : listen_target (runtime w) (PORT w) = None).
    { unfold listen_target. apply String.eqb_neq in Hne. rewrite Hne, Hd. cbn [negb andb].
      destruct (Z.leb_spec (value_of 0 (PORT w)) 65535) as [C|_]; [lia | reflexivity]. }
    unfold p, main, server_listen. rewrite T. repeat split.
Qed.

(** A worker started with PORT=8080, one with PORT=99999, and one with
    PORT=80 where the operating system keeps that port to itself. *)
Example worker_ports :
  let started := fun port : string =>
    main false sample_pids
      {| os := sample_os;
         process := {| pid := 4242; uptime := 0;
                       env := fun name => if String.eqb name "PORT" then Some port else None |};
         clock := 1700000000000; random := sample_random; drawn := 0;
         runtime := sample_runtime |} fresh in
  (listening (started "8080"%string) = Some (Port 8080) /\
   console (started "8080"%string) = ["✅ Worker 4242 running on port 8080"%string]) /\
  (listening (started "99999"%string) = None /\
   uncaught (started "99999"%string) = Some "ERR_SOCKET_BAD_PORT"%string /\
   console (started "99999"%string) = []) /\
  (listening (started "80"%string) = None /\
   uncaught (started "80"%string) = Some "EACCES"%string).
Proof. vm_compute. repeat split. Qed.
